(** * The browser client of the document-query service (frontend/script.js)

    A shallow embedding of [handleUpload], [handleQuery] and [displayResults]
    and of the pieces of the JavaScript runtime they rely on, followed by the
    properties of the upload flow, the query flow and the result renderer. *)

From Stdlib Require Import ZArith NArith Ascii String DecimalString DecimalPos.
From stdpp Require Import gmap strings list fin_maps.

Local Open Scope N_scope.

(** ** Strings

    A JavaScript string is a sequence of UTF-16 code units. *)

Definition jsstring := list N.

(** The code units of an ASCII literal of the script. *)
Definition lit (s : string) : jsstring :=
  map N_of_ascii (list_ascii_of_string s).
Arguments lit s%_string.

(** The quotation mark, a line feed, and a line feed followed by the
    indentation that the template literals of the script contain. *)
Definition dq : jsstring := [34].
Definition nl : jsstring := [10].
Definition indent (n : nat) : jsstring := nl ++ replicate n 32.

(** Decimal text of an integer, as [Number::toString] prints a safe integer. *)
Definition dec (z : Z) : jsstring :=
  lit (NilZero.string_of_int (Z.to_int z)).

(** [String.prototype.includes]: the needle occurs at some position. *)
Fixpoint startsWith (needle s : jsstring) : bool :=
  match needle, s with
  | [], _ => true
  | _ :: _, [] => false
  | a :: needle', b :: s' => (a =? b) && startsWith needle' s'
  end.

Fixpoint includes (s needle : jsstring) : bool :=
  startsWith needle s ||
  match s with
  | [] => false
  | _ :: s' => includes s' needle
  end.

(** [String.prototype.toLowerCase].  The ASCII capitals are mapped as
    ECMAScript maps them, and so are the two code points outside ASCII whose
    lower case contains an ASCII letter (KELVIN SIGN, and LATIN CAPITAL LETTER
    I WITH DOT ABOVE, which becomes two code units).  Every other code unit is
    kept; ECMAScript changes some of them, but only into code units outside
    ASCII, which no keyword that the script searches for contains. *)
Definition lower_unit (c : N) : jsstring :=
  if (65 <=? c) && (c <=? 90) then [c + 32]
  else if c =? 0x212A then [0x6B]
  else if c =? 0x130 then [0x69; 0x307]
  else [c].

Definition toLowerCase (s : jsstring) : jsstring := flat_map lower_unit s.

(** [String.prototype.trim] removes WhiteSpace and LineTerminator code units
    from both ends: TAB, LF, VT, FF, CR, SPACE, NBSP, U+1680, U+2000..U+200A,
    U+2028, U+2029, U+202F, U+205F, U+3000 and U+FEFF. *)
Definition is_white_space (c : N) : bool :=
  ((9 <=? c) && (c <=? 13)) || (c =? 0x20) || (c =? 0xA0) || (c =? 0x1680)
  || ((0x2000 <=? c) && (c <=? 0x200A)) || (c =? 0x2028) || (c =? 0x2029)
  || (c =? 0x202F) || (c =? 0x205F) || (c =? 0x3000) || (c =? 0xFEFF).

Fixpoint trimStart (s : jsstring) : jsstring :=
  match s with
  | c :: s' => if is_white_space c then trimStart s' else s
  | [] => []
  end.

Definition trimEnd (s : jsstring) : jsstring := rev (trimStart (rev s)).

Definition trim (s : jsstring) : jsstring := trimEnd (trimStart s).

(** ** Values

    What [response.json()] resolves to.  A number is kept as the text that
    [Number::toString] gives for it: the script observes a number only through
    ToString, ToBoolean and a comparison with zero, and all three are
    functions of that text (the two zeros both print as 0, and JSON has no
    NaN).  An object is the finite map of its own properties. *)
#[warnings="-register-all"]
Inductive value :=
  | VNull
  | VBool (b : bool)
  | VNum (repr : jsstring)
  | VStr (s : jsstring)
  | VArr (elements : list value)
  | VObj (properties : gmap jsstring value).

(** The result of a property read is a value or [undefined], which is [None]. *)
Definition jsval := option value.

(** ** Exceptions *)

Inductive nullish := Null | Undefined.

(** The TypeErrors that the runtime raises under this script. *)
Inductive type_error :=
  | ReadOfNullish (base : nullish) (prop : jsstring)
  | NotCallable (callee : jsstring)
  | NoPrimitive.

(** A thrown value.  [Error m] is an error object whose message is [m]: one
    that the script makes with [new Error], or the reason of a rejected
    [fetch] or [response.json] promise. *)
Inductive exn :=
  | Error (message : jsstring)
  | TypeError (e : type_error).

Inductive result (A : Type) :=
  | Ok (a : A)
  | Throw (e : exn).
Arguments Ok {A} a.
Arguments Throw {A} e.

(** Sequencing: the rest of a block runs only when the statement before it
    did not throw. *)
Definition bind {A B : Type} (m : result A) (k : A → result B) : result B :=
  match m with
  | Ok a => k a
  | Throw e => Throw e
  end.

Notation "'let*' x := m 'in' k" := (bind m (λ x, k))
  (at level 10, x name, m at level 100, k at level 200).

(** What the ECMAScript standard leaves to the engine: the message text of a
    TypeError it raises, and whether the Number that a string converts to is
    greater than zero (StringToNumber rounds to a double, and the standard
    lets the engine cut a literal after its twentieth significant digit). *)
Record Engine := {
  type_error_message : type_error → jsstring;
  string_gt_zero : jsstring → bool;
}.

(** [error.message] in a catch clause. *)
Definition message_of (E : Engine) (e : exn) : jsstring :=
  match e with
  | Error m => m
  | TypeError te => type_error_message E te
  end.

(** ** Runtime operations *)

(** [base.prop], for the data properties that the script reads ([decision],
    [justification], [conditions], [referenced_clauses], [length],
    [clause_number], [document_name], [text], [detail], [message]): of these
    only [length] exists on an array or a string that JSON.parse made, and
    none is inherited by an object. *)
Definition get (base : jsval) (prop : jsstring) : result jsval :=
  match base with
  | None => Throw (TypeError (ReadOfNullish Undefined prop))
  | Some VNull => Throw (TypeError (ReadOfNullish Null prop))
  | Some (VObj o) => Ok (o !! prop)
  | Some (VArr l) =>
      if bool_decide (prop = lit "length")
      then Ok (Some (VNum (dec (Z.of_nat (length l))))) else Ok None
  | Some (VStr s) =>
      if bool_decide (prop = lit "length")
      then Ok (Some (VNum (dec (Z.of_nat (length s))))) else Ok None
  | Some (VBool _) | Some (VNum _) => Ok None
  end.

(** ToBoolean. *)
Definition to_boolean (v : jsval) : bool :=
  match v with
  | None | Some VNull => false
  | Some (VBool b) => b
  | Some (VNum r) => negb (bool_decide (r = lit "0"))
  | Some (VStr s) => negb (bool_decide (s = []))
  | Some (VArr _) | Some (VObj _) => true
  end.

(** [a || b] with a literal on the right. *)
Definition or_default (a : jsval) (b : jsstring) : jsval :=
  if to_boolean a then a else Some (VStr b).

(** ToString of a value.  An array prints through [join], which prints a null
    element as the empty string.  An object prints through
    [Object.prototype.toString], unless it has an own property [toString]:
    that is a JSON value, hence not callable, and ToPrimitive then finds no
    primitive and throws. *)
Fixpoint to_string_value (v : value) : result jsstring :=
  match v with
  | VNull => Ok (lit "null")
  | VBool b => Ok (if b then lit "true" else lit "false")
  | VNum r => Ok r
  | VStr s => Ok s
  | VArr l =>
      (fix join (l : list value) : result jsstring :=
         match l with
         | [] => Ok []
         | x :: rest =>
             let* s := match x with VNull => Ok [] | _ => to_string_value x end in
             match rest with
             | [] => Ok s
             | _ :: _ => let* r := join rest in Ok (s ++ lit "," ++ r)
             end
         end) l
  | VObj o =>
      if bool_decide (is_Some (o !! lit "toString"))
      then Throw (TypeError NoPrimitive)
      else Ok (lit "[object Object]")
  end.

Definition to_string (v : jsval) : result jsstring :=
  match v with
  | None => Ok (lit "undefined")
  | Some v => to_string_value v
  end.

(** [v > 0].  A number is positive when its text is neither 0 nor starts with
    a minus sign; [undefined] converts to NaN and null to 0; an array converts
    through its text; an object converts to NaN, or throws as in ToString. *)
Definition gt_zero (E : Engine) (v : jsval) : result bool :=
  match v with
  | None | Some VNull => Ok false
  | Some (VBool b) => Ok b
  | Some (VNum r) =>
      Ok (negb (bool_decide (r = lit "0")) && negb (startsWith (lit "-") r))
  | Some (VStr s) => Ok (string_gt_zero E s)
  | Some (VArr l) => let* s := to_string_value (VArr l) in Ok (string_gt_zero E s)
  | Some (VObj o) => let* _ := to_string_value (VObj o) in Ok false
  end.

(** [base.toLowerCase()]: only a string has the method. *)
Definition call_toLowerCase (callee : jsstring) (base : jsval) : result jsstring :=
  match base with
  | None => Throw (TypeError (ReadOfNullish Undefined (lit "toLowerCase")))
  | Some VNull => Throw (TypeError (ReadOfNullish Null (lit "toLowerCase")))
  | Some (VStr s) => Ok (toLowerCase s)
  | Some _ => Throw (TypeError (NotCallable callee))
  end.

(** [base.forEach(f)] where [f] updates one variable of the enclosing
    function: only an array has the method, and it calls [f] on the elements
    in index order; an exception of [f] ends the loop. *)
Fixpoint forEach_array {S : Type} (l : list value) (f : value → S → result S)
    (s : S) : result S :=
  match l with
  | [] => Ok s
  | x :: l' => let* s' := f x s in forEach_array l' f s'
  end.

Definition call_forEach {S : Type} (callee : jsstring) (base : jsval)
    (f : value → S → result S) (s : S) : result S :=
  match base with
  | None => Throw (TypeError (ReadOfNullish Undefined (lit "forEach")))
  | Some VNull => Throw (TypeError (ReadOfNullish Null (lit "forEach")))
  | Some (VArr l) => forEach_array l f s
  | Some _ => Throw (TypeError (NotCallable callee))
  end.

(** ** The page

    The script's variable [sessionId] and the parts of the document that the
    handlers read or write. *)

Record File := {
  file_name : jsstring;
  file_content : list N;
}.

Record Page := {
  sessionId : option jsstring;            (* null, or a string *)
  fileInput_files : list File;
  questionInput_value : jsstring;
  uploadStatus_textContent : jsstring;
  uploadStatus_style_color : jsstring;
  queryCard_style_display : jsstring;
  resultsCard_style_display : jsstring;
  loader_style_display : jsstring;
  resultsContent_innerHTML : jsstring;
}.

Definition set_sessionId (v : option jsstring) (p : Page) : Page :=
  {| sessionId := v;
     fileInput_files := fileInput_files p;
     questionInput_value := questionInput_value p;
     uploadStatus_textContent := uploadStatus_textContent p;
     uploadStatus_style_color := uploadStatus_style_color p;
     queryCard_style_display := queryCard_style_display p;
     resultsCard_style_display := resultsCard_style_display p;
     loader_style_display := loader_style_display p;
     resultsContent_innerHTML := resultsContent_innerHTML p |}.

Definition set_uploadStatus_textContent (v : jsstring) (p : Page) : Page :=
  {| sessionId := sessionId p;
     fileInput_files := fileInput_files p;
     questionInput_value := questionInput_value p;
     uploadStatus_textContent := v;
     uploadStatus_style_color := uploadStatus_style_color p;
     queryCard_style_display := queryCard_style_display p;
     resultsCard_style_display := resultsCard_style_display p;
     loader_style_display := loader_style_display p;
     resultsContent_innerHTML := resultsContent_innerHTML p |}.

Definition set_uploadStatus_style_color (v : jsstring) (p : Page) : Page :=
  {| sessionId := sessionId p;
     fileInput_files := fileInput_files p;
     questionInput_value := questionInput_value p;
     uploadStatus_textContent := uploadStatus_textContent p;
     uploadStatus_style_color := v;
     queryCard_style_display := queryCard_style_display p;
     resultsCard_style_display := resultsCard_style_display p;
     loader_style_display := loader_style_display p;
     resultsContent_innerHTML := resultsContent_innerHTML p |}.

Definition set_queryCard_style_display (v : jsstring) (p : Page) : Page :=
  {| sessionId := sessionId p;
     fileInput_files := fileInput_files p;
     questionInput_value := questionInput_value p;
     uploadStatus_textContent := uploadStatus_textContent p;
     uploadStatus_style_color := uploadStatus_style_color p;
     queryCard_style_display := v;
     resultsCard_style_display := resultsCard_style_display p;
     loader_style_display := loader_style_display p;
     resultsContent_innerHTML := resultsContent_innerHTML p |}.

Definition set_resultsCard_style_display (v : jsstring) (p : Page) : Page :=
  {| sessionId := sessionId p;
     fileInput_files := fileInput_files p;
     questionInput_value := questionInput_value p;
     uploadStatus_textContent := uploadStatus_textContent p;
     uploadStatus_style_color := uploadStatus_style_color p;
     queryCard_style_display := queryCard_style_display p;
     resultsCard_style_display := v;
     loader_style_display := loader_style_display p;
     resultsContent_innerHTML := resultsContent_innerHTML p |}.

Definition set_loader_style_display (v : jsstring) (p : Page) : Page :=
  {| sessionId := sessionId p;
     fileInput_files := fileInput_files p;
     questionInput_value := questionInput_value p;
     uploadStatus_textContent := uploadStatus_textContent p;
     uploadStatus_style_color := uploadStatus_style_color p;
     queryCard_style_display := queryCard_style_display p;
     resultsCard_style_display := resultsCard_style_display p;
     loader_style_display := v;
     resultsContent_innerHTML := resultsContent_innerHTML p |}.

Definition set_resultsContent_innerHTML (v : jsstring) (p : Page) : Page :=
  {| sessionId := sessionId p;
     fileInput_files := fileInput_files p;
     questionInput_value := questionInput_value p;
     uploadStatus_textContent := uploadStatus_textContent p;
     uploadStatus_style_color := uploadStatus_style_color p;
     queryCard_style_display := queryCard_style_display p;
     resultsCard_style_display := resultsCard_style_display p;
     loader_style_display := loader_style_display p;
     resultsContent_innerHTML := v |}.

(** The user types into the question input. *)
Definition set_questionInput_value (v : jsstring) (p : Page) : Page :=
  {| sessionId := sessionId p;
     fileInput_files := fileInput_files p;
     questionInput_value := v;
     uploadStatus_textContent := uploadStatus_textContent p;
     uploadStatus_style_color := uploadStatus_style_color p;
     queryCard_style_display := queryCard_style_display p;
     resultsCard_style_display := resultsCard_style_display p;
     loader_style_display := loader_style_display p;
     resultsContent_innerHTML := resultsContent_innerHTML p |}.

(** ** The network *)

Inductive form_entry :=
  | FileEntry (f : File)
  | TextEntry (s : jsstring).

(** The body of a request: a FormData, or the text that [JSON.stringify]
    makes of a value, which is kept as that value. *)
Inductive request_body :=
  | FormDataBody (entries : list (jsstring * form_entry))
  | JsonBody (v : value).

Record Request := {
  url : jsstring;
  method : jsstring;
  headers : list (jsstring * jsstring);
  body : request_body;
}.

(** How [response.json()] settles, and how [fetch] settles.  A rejection
    carries the message of its reason. *)
Inductive json_outcome :=
  | JsonRejects (message : jsstring)
  | JsonResolves (v : value).

Record Response := {
  status : N;
  json : json_outcome;
}.

(** [response.ok]: the status is in the range 200..299. *)
Definition ok (r : Response) : bool := (200 <=? status r) && (status r <=? 299).

Inductive fetch_outcome :=
  | FetchRejects (message : jsstring)
  | FetchResolves (r : Response).

Definition await_fetch (o : fetch_outcome) : result Response :=
  match o with
  | FetchRejects m => Throw (Error m)
  | FetchResolves r => Ok r
  end.

Definition await_json (r : Response) : result value :=
  match json r with
  | JsonRejects m => Throw (Error m)
  | JsonResolves v => Ok v
  end.

(** ** Effects and suspension

    What a handler does besides writing the page, in order.  An async handler
    runs until its first [await]: [Done] is a handler that returned before
    any network call, [Await] one that has called [fetch] on the request and
    is suspended on it. *)
Inductive effect :=
  | Alert (message : jsstring)
  | Focus_questionInput.

Inductive progress :=
  | Done (p : Page) (effects : list effect)
  | Await (p : Page) (effects : list effect) (request : Request).

Definition API_BASE_URL : jsstring := lit "http://127.0.0.1:8000".

(** ** handleUpload *)

(** The text that [FormData.append] stores for the variable [sessionId]. *)
Definition form_text (v : option jsstring) : jsstring :=
  match v with
  | Some s => s
  | None => lit "null"
  end.

(** From the click to the call of [fetch]. *)
Definition handleUpload_begin (now : Z) (p : Page) : progress :=
  match head (fileInput_files p) with
  | None =>
      let p := set_uploadStatus_textContent (lit "Please select a file first.") p in
      let p := set_uploadStatus_style_color (lit "red") p in
      Done p []
  | Some file =>
      let p := set_sessionId (Some (lit "session_" ++ dec now)) p in
      let p := set_uploadStatus_textContent (lit "Uploading and processing...") p in
      let p := set_uploadStatus_style_color (lit "orange") p in
      let formData := [] in
      let formData := formData ++ [(lit "file", FileEntry file)] in
      let formData :=
        formData ++ [(lit "session_id", TextEntry (form_text (sessionId p)))] in
      Await p []
        {| url := API_BASE_URL ++ lit "/upload_document/";
           method := lit "POST";
           headers := [];
           body := FormDataBody formData |}
  end.

(** The value that an assignment to [textContent] stores: null and
    [undefined] clear the text, any other value is converted with ToString. *)
Definition textContent_of (v : jsval) : result jsstring :=
  match v with
  | None | Some VNull => Ok []
  | Some _ => to_string v
  end.

(** [if (!response.ok) { ... throw new Error(errorData.detail || fallback) }] *)
Definition throw_unless_ok (fallback : jsstring) (response : Response)
  : result unit :=
  if negb (ok response) then
    let* errorData := await_json response in
    let* detail := get (Some errorData) (lit "detail") in
    let* message := to_string (or_default detail fallback) in
    Throw (Error message)
  else Ok tt.

(** The try block, from the settling of [fetch] on.  Nothing is written
    before the last statement that can throw, and nothing is read or written
    between the two awaits, so the block acts on the page as it is when
    [response.json()] settles. *)
Definition handleUpload_try (o : fetch_outcome) (p : Page)
  : result (Page * list effect) :=
  let* response := await_fetch o in
  let* _ := throw_unless_ok (lit "Upload failed") response in
  let* data := await_json response in
  let* message := get (Some data) (lit "message") in
  let* text := textContent_of message in
  let p := set_uploadStatus_textContent text p in
  let p := set_uploadStatus_style_color (lit "green") p in
  let p := set_queryCard_style_display (lit "block") p in
  Ok (p, [Focus_questionInput]).

Definition handleUpload_settle (E : Engine) (o : fetch_outcome) (p : Page)
  : Page * list effect :=
  match handleUpload_try o p with
  | Ok r => r
  | Throw error =>
      let p := set_uploadStatus_textContent (lit "Error: " ++ message_of E error) p in
      let p := set_uploadStatus_style_color (lit "red") p in
      (p, [])
  end.

(** ** displayResults *)

(** [data.decision.toLowerCase().includes(keyword)] *)
Definition decision_includes (data : value) (keyword : jsstring) : result bool :=
  let* decision := get (Some data) (lit "decision") in
  let* lower := call_toLowerCase (lit "data.decision.toLowerCase") decision in
  Ok (includes lower keyword).

(** [a || b] on conditions: [b] is evaluated only when [a] is false. *)
Definition or_else (a b : result bool) : result bool :=
  let* x := a in if x then Ok true else b.

(** [a && b] where [a] is a value and [b] a condition. *)
Definition and_then (a : jsval) (b : result bool) : result bool :=
  if to_boolean a then b else Ok false.

Definition decisionClass (data : value) : result jsstring :=
  let decisionClass := lit "Information" in
  let* approved := or_else (decision_includes data (lit "approved"))
                     (decision_includes data (lit "covered")) in
  if approved then Ok (lit "Approved")
  else
    let* rejected := or_else (decision_includes data (lit "rejected"))
                       (decision_includes data (lit "not")) in
    if rejected then Ok (lit "Rejected") else Ok decisionClass.

(** The template literal that the callback of [forEach] appends. *)
Definition clause_html (clause : value) : result jsstring :=
  let* clause_number := get (Some clause) (lit "clause_number") in
  let* number := to_string (or_default clause_number (lit "N/A")) in
  let* document_name := get (Some clause) (lit "document_name") in
  let* name := to_string document_name in
  let* text := get (Some clause) (lit "text") in
  let* quoted := to_string text in
  Ok (indent 20 ++ lit "<div class=" ++ dq ++ lit "referenced-clause" ++ dq ++ lit ">"
      ++ indent 24 ++ lit "<strong>Clause " ++ number ++ lit " (from " ++ name
      ++ lit ")</strong>"
      ++ indent 24 ++ lit "<p>" ++ dq ++ quoted ++ dq ++ lit "</p>"
      ++ indent 20 ++ lit "</div>"
      ++ indent 16).

(** The markup that [displayResults] builds in its variable [html]. *)
Definition displayResults_html (E : Engine) (data : value) : result jsstring :=
  let* decisionClass := decisionClass data in
  let* decision := get (Some data) (lit "decision") in
  let* decision := to_string decision in
  let* justification := get (Some data) (lit "justification") in
  let* justification := to_string justification in
  let html :=
    indent 12 ++ lit "<div class=" ++ dq ++ lit "decision " ++ decisionClass ++ dq
    ++ lit ">" ++ decision ++ lit "</div>"
    ++ indent 12 ++ lit "<h3>Justification</h3>"
    ++ indent 12 ++ lit "<p>" ++ justification ++ lit "</p>"
    ++ indent 8 in
  let* conditions := get (Some data) (lit "conditions") in
  let* html :=
    (if to_boolean conditions then
       let* conditions := to_string conditions in
       Ok (html
           ++ indent 16 ++ lit "<h3>Conditions</h3>"
           ++ indent 16 ++ lit "<p>" ++ conditions ++ lit "</p>"
           ++ indent 12)
     else Ok html) in
  let* referenced_clauses := get (Some data) (lit "referenced_clauses") in
  let* nonempty :=
    and_then referenced_clauses
      (let* length := get referenced_clauses (lit "length") in gt_zero E length) in
  if nonempty then
    let html := html ++ lit "<h3>Referenced Clauses</h3>" in
    call_forEach (lit "data.referenced_clauses.forEach") referenced_clauses
      (λ clause html, let* fragment := clause_html clause in Ok (html ++ fragment)) html
  else Ok html.

Definition displayResults (E : Engine) (data : value) (p : Page) : result Page :=
  let* html := displayResults_html E data in
  Ok (set_resultsContent_innerHTML html p).

(** ** handleQuery *)

(** The variable [sessionId] as a value: null until an upload sets it. *)
Definition sessionId_value (p : Page) : value :=
  match sessionId p with
  | None => VNull
  | Some s => VStr s
  end.

(** From the click to the call of [fetch]. *)
Definition handleQuery_begin (p : Page) : progress :=
  let question := trim (questionInput_value p) in
  if negb (to_boolean (Some (VStr question))) then
    Done p [Alert (lit "Please enter a question.")]
  else if negb (to_boolean (Some (sessionId_value p))) then
    Done p [Alert (lit "Please upload a document first.")]
  else
    let p := set_resultsCard_style_display (lit "block") p in
    let p := set_loader_style_display (lit "block") p in
    let p := set_resultsContent_innerHTML [] p in
    let requestBody : gmap jsstring value :=
      <[lit "question" := VStr question]>
        (<[lit "session_id" := sessionId_value p]> ∅) in
    Await p []
      {| url := API_BASE_URL ++ lit "/query/";
         method := lit "POST";
         headers := [(lit "Content-Type", lit "application/json")];
         body := JsonBody (VObj requestBody) |}.

(** The try block, from the settling of [fetch] on; as in [handleUpload_try]
    the page is written once, by the last statement. *)
Definition handleQuery_try (E : Engine) (o : fetch_outcome) (p : Page)
  : result Page :=
  let* response := await_fetch o in
  let* _ := throw_unless_ok (lit "Query failed") response in
  let* data := await_json response in
  displayResults E data p.

Definition handleQuery_settle (E : Engine) (o : fetch_outcome) (p : Page) : Page :=
  let p :=
    match handleQuery_try E o p with
    | Ok p' => p'
    | Throw error =>
        set_resultsContent_innerHTML
          (lit "<p style=" ++ dq ++ lit "color:red;" ++ dq ++ lit ">Error: "
           ++ message_of E error ++ lit "</p>") p
    end in
  set_loader_style_display (lit "none") p.

(** ** Whole runs

    A handler that runs from the click to its end with no other event in
    between: the page at the end, the effects, and the requests sent, given
    how the network answers a request. *)
Definition handleUpload (E : Engine) (now : Z) (network : Request → fetch_outcome)
    (p : Page) : Page * list effect * list Request :=
  match handleUpload_begin now p with
  | Done p' effects => (p', effects, [])
  | Await p' effects request =>
      let '(p'', effects') := handleUpload_settle E (network request) p' in
      (p'', effects ++ effects', [request])
  end.

Definition handleQuery (E : Engine) (network : Request → fetch_outcome) (p : Page)
  : Page * list effect * list Request :=
  match handleQuery_begin p with
  | Done p' effects => (p', effects, [])
  | Await p' effects request =>
      (handleQuery_settle E (network request) p', effects, [request])
  end.

(** ** An engine

    V8, for the closed examples: its TypeError texts, and StringToNumber with
    correct rounding, under which a decimal literal is a positive Number
    exactly when it denotes more than 2^-1075, half of the least double. *)
Module V8.

Definition message (e : type_error) : jsstring :=
  match e with
  | ReadOfNullish Null prop =>
      lit "Cannot read properties of null (reading '" ++ prop ++ lit "')"
  | ReadOfNullish Undefined prop =>
      lit "Cannot read properties of undefined (reading '" ++ prop ++ lit "')"
  | NotCallable callee => callee ++ lit " is not a function"
  | NoPrimitive => lit "Cannot convert object to primitive value"
  end.

Definition is_digit (c : N) : bool := (48 <=? c) && (c <=? 57).

Definition is_hex_digit (c : N) : bool :=
  is_digit c || ((65 <=? c) && (c <=? 70)) || ((97 <=? c) && (c <=? 102)).

Fixpoint span (f : N → bool) (s : jsstring) : jsstring * jsstring :=
  match s with
  | c :: s' =>
      if f c then let '(a, b) := span f s' in (c :: a, b) else ([], s)
  | [] => ([], [])
  end.

Definition digits_value (ds : jsstring) : Z :=
  fold_left (λ acc d, 10 * acc + Z.of_N (d - 48))%Z ds 0%Z.

(** The optional ExponentPart that ends a literal. *)
Definition exponent (s : jsstring) : option Z :=
  match s with
  | [] => Some 0%Z
  | e :: s' =>
      if (e =? 101) || (e =? 69) then
        let '(negative, s'') :=
          match s' with
          | 43 :: t => (false, t)
          | 45 :: t => (true, t)
          | _ => (false, s')
          end in
        match span is_digit s'' with
        | (d :: ds, []) =>
            Some (if negative : bool then (- digits_value (d :: ds))%Z
                  else digits_value (d :: ds))
        | _ => None
        end
      else None
  end.

(** [m * 10^e] rounds to a double above zero. *)
Definition rounds_above_zero (m e : Z) : bool :=
  if (0 <=? e)%Z then (0 <? m)%Z
  else (10 ^ (- e) <? m * 2 ^ 1075)%Z.

(** StrUnsignedDecimalLiteral *)
Definition unsigned_decimal_gt_zero (s : jsstring) : bool :=
  if bool_decide (s = lit "Infinity") then true
  else
    let '(int, rest) := span is_digit s in
    let '(frac, rest) :=
      match rest with
      | 46 :: t => span is_digit t
      | _ => ([], rest)
      end in
    if bool_decide (int = []) && bool_decide (frac = []) then false
    else
      match exponent rest with
      | None => false
      | Some e =>
          rounds_above_zero (digits_value (int ++ frac)) (e - Z.of_nat (length frac))
      end.

(** NonDecimalIntegerLiteral after its prefix: digits, not all of them 0. *)
Definition digits_gt_zero (is_digit : N → bool) (ds : jsstring) : bool :=
  negb (bool_decide (ds = [])) && forallb is_digit ds
  && existsb (λ c, negb (c =? 48)) ds.

Definition trimmed_gt_zero (s : jsstring) : bool :=
  match trim s with
  | 48 :: x :: ds =>
      if (x =? 120) || (x =? 88) then digits_gt_zero is_hex_digit ds
      else if (x =? 111) || (x =? 79) then
        digits_gt_zero (λ c, (48 <=? c) && (c <=? 55)) ds
      else if (x =? 98) || (x =? 66) then
        digits_gt_zero (λ c, (48 <=? c) && (c <=? 49)) ds
      else unsigned_decimal_gt_zero (48 :: x :: ds)
  | 43 :: u => unsigned_decimal_gt_zero u
  | 45 :: _ => false
  | t => unsigned_decimal_gt_zero t
  end.

Definition engine : Engine :=
  {| type_error_message := message; string_gt_zero := trimmed_gt_zero |}.

End V8.

(** ** The class of a decision text

    What [decisionClass] computes when [data.decision] is the string [d]. *)
Definition class_of_decision (d : jsstring) : jsstring :=
  if includes (toLowerCase d) (lit "approved") || includes (toLowerCase d) (lit "covered")
  then lit "Approved"
  else if includes (toLowerCase d) (lit "rejected") || includes (toLowerCase d) (lit "not")
  then lit "Rejected"
  else lit "Information".

(** The three display categories and their class names. *)
Inductive category := Positive | Negative | Neutral.

Definition class_name (c : category) : jsstring :=
  match c with
  | Positive => lit "Approved"
  | Negative => lit "Rejected"
  | Neutral => lit "Information"
  end.

(** Containment up to the case of ASCII letters: some segment of [s] is the
    lower-case [keyword] once its capitals are lowered. *)
Definition ascii_lower (c : N) : N :=
  if (65 <=? c) && (c <=? 90) then c + 32 else c.

Definition contains_ci (s keyword : jsstring) : Prop :=
  ∃ pre mid post, s = pre ++ mid ++ post ∧ map ascii_lower mid = keyword.

(** A keyword that the special cases of [lower_unit] cannot produce: lower
    case ASCII letters other than i and k. *)
Definition plain_letter (c : N) : bool :=
  (97 <=? c) && (c <=? 122) && negb (c =? 0x69) && negb (c =? 0x6B).

(** ** The query response of the data model

    A response in which every field has the type that the data model gives
    it, how such a response is read off a JSON value, and the view that the
    renderer shows for it. *)
Inductive scalar :=
  | Number (repr : jsstring)
  | Text (s : jsstring).

Record Clause := {
  clause_number : option scalar;
  document_name : jsstring;
  clause_text : jsstring;
}.

Record QueryResponse := {
  decision : jsstring;
  justification : jsstring;
  conditions : option jsstring;
  referenced_clauses : option (list Clause);
}.

Definition decode_text (v : jsval) : option jsstring :=
  match v with
  | Some (VStr s) => Some s
  | _ => None
  end.

(** An optional field is absent or null, or has its type. *)
Definition decode_optional {A : Type} (f : value → option A) (v : jsval)
  : option (option A) :=
  match v with
  | None | Some VNull => Some None
  | Some v => Some <$> f v
  end.

Definition decode_scalar (v : value) : option scalar :=
  match v with
  | VNum r => Some (Number r)
  | VStr s => Some (Text s)
  | _ => None
  end.

Definition decode_clause (v : value) : option Clause :=
  match v with
  | VObj o =>
      n ← decode_optional decode_scalar (o !! lit "clause_number");
      d ← decode_text (o !! lit "document_name");
      t ← decode_text (o !! lit "text");
      Some {| clause_number := n; document_name := d; clause_text := t |}
  | _ => None
  end.

Definition decode_clauses (v : value) : option (list Clause) :=
  match v with
  | VArr l => mapM decode_clause l
  | _ => None
  end.

Definition decode (data : value) : option QueryResponse :=
  match data with
  | VObj o =>
      d ← decode_text (o !! lit "decision");
      j ← decode_text (o !! lit "justification");
      c ← decode_optional (λ v, decode_text (Some v)) (o !! lit "conditions");
      r ← decode_optional decode_clauses (o !! lit "referenced_clauses");
      Some {| decision := d; justification := j; conditions := c;
              referenced_clauses := r |}
  | _ => None
  end.

Definition decision_view (r : QueryResponse) : jsstring :=
  indent 12 ++ lit "<div class=" ++ dq ++ lit "decision "
  ++ class_of_decision (decision r) ++ dq ++ lit ">" ++ decision r ++ lit "</div>"
  ++ indent 12 ++ lit "<h3>Justification</h3>"
  ++ indent 12 ++ lit "<p>" ++ justification r ++ lit "</p>"
  ++ indent 8.

(** The conditions are shown when they are a non-empty text. *)
Definition conditions_view (c : option jsstring) : jsstring :=
  match c with
  | Some (u :: t) =>
      indent 16 ++ lit "<h3>Conditions</h3>"
      ++ indent 16 ++ lit "<p>" ++ (u :: t) ++ lit "</p>"
      ++ indent 12
  | Some [] | None => []
  end.

(** The clause number that is shown: the number itself when it is truthy,
    the placeholder when it is absent, the empty text or the number 0. *)
Definition number_view (n : option scalar) : jsstring :=
  match n with
  | Some (Number r) => if bool_decide (r = lit "0") then lit "N/A" else r
  | Some (Text s) => if bool_decide (s = []) then lit "N/A" else s
  | None => lit "N/A"
  end.

Definition clause_view (c : Clause) : jsstring :=
  indent 20 ++ lit "<div class=" ++ dq ++ lit "referenced-clause" ++ dq ++ lit ">"
  ++ indent 24 ++ lit "<strong>Clause " ++ number_view (clause_number c)
  ++ lit " (from " ++ document_name c ++ lit ")</strong>"
  ++ indent 24 ++ lit "<p>" ++ dq ++ clause_text c ++ dq ++ lit "</p>"
  ++ indent 20 ++ lit "</div>"
  ++ indent 16.

(** The section of the clauses is shown when there is at least one clause,
    and shows the clauses in their order. *)
Definition clauses_view (l : option (list Clause)) : jsstring :=
  match l with
  | Some (c :: l) => lit "<h3>Referenced Clauses</h3>" ++ concat (map clause_view (c :: l))
  | Some [] | None => []
  end.

Definition view (r : QueryResponse) : jsstring :=
  decision_view r ++ conditions_view (conditions r)
  ++ clauses_view (referenced_clauses r).

(** ** Sample data for the closed examples *)

Definition obj (l : list (jsstring * value)) : value := VObj (list_to_map l).

Definition policy_pdf : File :=
  {| file_name := lit "policy.pdf"; file_content := [37; 80; 68; 70] |}.

(** The page after loading: no session, nothing selected, nothing typed. *)
Definition fresh_page : Page :=
  {| sessionId := None;
     fileInput_files := [];
     questionInput_value := [];
     uploadStatus_textContent := [];
     uploadStatus_style_color := [];
     queryCard_style_display := lit "none";
     resultsCard_style_display := lit "none";
     loader_style_display := lit "none";
     resultsContent_innerHTML := [] |}.

Definition page_with_file : Page :=
  {| sessionId := None;
     fileInput_files := [policy_pdf];
     questionInput_value := lit "  Is knee surgery covered? ";
     uploadStatus_textContent := [];
     uploadStatus_style_color := [];
     queryCard_style_display := lit "none";
     resultsCard_style_display := lit "none";
     loader_style_display := lit "none";
     resultsContent_innerHTML := [] |}.

Definition ready_response : Response :=
  {| status := 200; json := JsonResolves (obj [(lit "message", VStr (lit "Ready"))]) |}.

Definition bad_file_response : Response :=
  {| status := 400; json := JsonResolves (obj [(lit "detail", VStr (lit "bad file"))]) |}.

Definition no_detail_response : Response :=
  {| status := 500; json := JsonResolves (obj []) |}.

Definition not_approved : value :=
  obj [(lit "decision", VStr (lit "Not approved"));
       (lit "justification", VStr (lit "The waiting period has not passed."))].

Definition two_clauses : value :=
  obj [(lit "decision", VStr (lit "Approved for coverage"));
       (lit "justification", VStr (lit "Both clauses apply."));
       (lit "referenced_clauses",
        VArr [obj [(lit "clause_number", VStr (lit "4.2"));
                   (lit "document_name", VStr (lit "policy.pdf"));
                   (lit "text", VStr (lit "Knee surgery is covered."))];
              obj [(lit "document_name", VStr (lit "annex.pdf"));
                   (lit "text", VStr (lit "After 24 months."))]])].

Definition clause_zero : value :=
  obj [(lit "clause_number", VNum (lit "0"));
       (lit "document_name", VStr (lit "policy.pdf"));
       (lit "text", VStr (lit "Definitions."))].

Definition zero_clause_response : value :=
  obj [(lit "decision", VStr (lit "Covered"));
       (lit "justification", VStr (lit "See the definitions."));
       (lit "referenced_clauses", VArr [clause_zero])].

(** [two_clauses] as a response of the data model. *)
Definition two_clauses_response : QueryResponse :=
  {| decision := lit "Approved for coverage";
     justification := lit "Both clauses apply.";
     conditions := None;
     referenced_clauses :=
       Some [ {| clause_number := Some (Text (lit "4.2"));
                 document_name := lit "policy.pdf";
                 clause_text := lit "Knee surgery is covered." |};
              {| clause_number := None;
                 document_name := lit "annex.pdf";
                 clause_text := lit "After 24 months." |} ] |}.

(** A page with a session, and a question typed with spaces around it. *)
Definition page_with_session : Page :=
  {| sessionId := Some (lit "session_1730000000000");
     fileInput_files := [policy_pdf];
     questionInput_value := lit "  Is knee surgery covered? ";
     uploadStatus_textContent := lit "Ready";
     uploadStatus_style_color := lit "green";
     queryCard_style_display := lit "block";
     resultsCard_style_display := lit "none";
     loader_style_display := lit "none";
     resultsContent_innerHTML := [] |}.

(** A network on which every call fails before a response arrives, and a
    service that accepts every upload and answers every query with
    [two_clauses]. *)
Definition offline (request : Request) : fetch_outcome :=
  FetchRejects (lit "Failed to fetch").

Definition service (request : Request) : fetch_outcome :=
  match body request with
  | FormDataBody _ => FetchResolves ready_response
  | JsonBody _ => FetchResolves {| status := 200; json := JsonResolves two_clauses |}
  end.

(** ** The event loop

    The listener of [DOMContentLoaded] starts with [sessionId] null and
    makes [handleUpload] the click listener of the upload button and
    [handleQuery] that of the query button.  From then on the page changes
    by events, one at a time: the user selects files or types a question, a
    button is clicked, or a call that a handler awaits settles and the
    handler runs to its end.  (A handler resumes when [fetch] settles and
    again when [response.json()] settles; it reads and writes nothing in
    between, so the two are one event, at the time of the second.)  A click
    while a call is awaited starts another run of the handler; the calls
    awaited are kept oldest first. *)

(** The user selects files in the file input. *)
Definition set_fileInput_files (v : list File) (p : Page) : Page :=
  {| sessionId := sessionId p;
     fileInput_files := v;
     questionInput_value := questionInput_value p;
     uploadStatus_textContent := uploadStatus_textContent p;
     uploadStatus_style_color := uploadStatus_style_color p;
     queryCard_style_display := queryCard_style_display p;
     resultsCard_style_display := resultsCard_style_display p;
     loader_style_display := loader_style_display p;
     resultsContent_innerHTML := resultsContent_innerHTML p |}.

Inductive call := UploadCall | QueryCall.

Record World := {
  page : Page;
  pending : list call;
  sent : list Request;
  shown : list effect;
}.

Inductive event :=
  | SelectFiles (files : list File)
  | TypeQuestion (text : jsstring)
  | ClickUpload (now : Z)
  | ClickQuery
  | Settle (i : nat) (o : fetch_outcome).

(** The world after a handler ran from a click to its return or its await. *)
Definition after_begin (c : call) (w : World) (pr : progress) : World :=
  match pr with
  | Done p effects =>
      {| page := p; pending := pending w; sent := sent w;
         shown := shown w ++ effects |}
  | Await p effects request =>
      {| page := p; pending := pending w ++ [c]; sent := sent w ++ [request];
         shown := shown w ++ effects |}
  end.

(** [Settle i o]: the call at index [i] of the calls awaited settles as [o];
    there is nothing to do when no such call is awaited. *)
Definition step (E : Engine) (e : event) (w : World) : World :=
  match e with
  | SelectFiles files =>
      {| page := set_fileInput_files files (page w); pending := pending w;
         sent := sent w; shown := shown w |}
  | TypeQuestion text =>
      {| page := set_questionInput_value text (page w); pending := pending w;
         sent := sent w; shown := shown w |}
  | ClickUpload now => after_begin UploadCall w (handleUpload_begin now (page w))
  | ClickQuery => after_begin QueryCall w (handleQuery_begin (page w))
  | Settle i o =>
      match pending w !! i with
      | None => w
      | Some UploadCall =>
          let '(p, effects) := handleUpload_settle E o (page w) in
          {| page := p; pending := delete i (pending w); sent := sent w;
             shown := shown w ++ effects |}
      | Some QueryCall =>
          {| page := handleQuery_settle E o (page w);
             pending := delete i (pending w); sent := sent w; shown := shown w |}
      end
  end.

Definition run (E : Engine) (events : list event) (w : World) : World :=
  fold_left (λ w e, step E e w) events w.

(** The world when the listeners have been registered, on a page whose
    markup is [p]. *)
Definition loaded (p : Page) : World :=
  {| page := set_sessionId None p; pending := []; sent := []; shown := [] |}.

(** The session identifier that a request carries: the [session_id] entry of
    the form of an upload, the [session_id] of the body of a query. *)
Definition upload_session (r : Request) : option jsstring :=
  match body r with
  | FormDataBody entries =>
      match list_find (λ e, e.1 = lit "session_id") entries with
      | Some (_, (_, TextEntry s)) => Some s
      | _ => None
      end
  | JsonBody _ => None
  end.

Definition query_session (r : Request) : option jsstring :=
  match body r with
  | JsonBody (VObj o) =>
      match o !! lit "session_id" with
      | Some (VStr s) => Some s
      | _ => None
      end
  | _ => None
  end.

Definition is_click (e : event) : bool :=
  match e with
  | ClickUpload _ | ClickQuery => true
  | _ => false
  end.

Definition is_ClickUpload (e : event) : bool :=
  match e with
  | ClickUpload _ => true
  | _ => false
  end.

(** ** The statements of displayResults, in two parts

    The markup before the statement of the referenced clauses, and that
    statement on the markup so far. *)
Definition html_before_clauses (data : value) : result jsstring :=
  let* decisionClass := decisionClass data in
  let* decision := get (Some data) (lit "decision") in
  let* decision := to_string decision in
  let* justification := get (Some data) (lit "justification") in
  let* justification := to_string justification in
  let html :=
    indent 12 ++ lit "<div class=" ++ dq ++ lit "decision " ++ decisionClass ++ dq
    ++ lit ">" ++ decision ++ lit "</div>"
    ++ indent 12 ++ lit "<h3>Justification</h3>"
    ++ indent 12 ++ lit "<p>" ++ justification ++ lit "</p>"
    ++ indent 8 in
  let* conditions := get (Some data) (lit "conditions") in
  if to_boolean conditions then
    let* conditions := to_string conditions in
    Ok (html
        ++ indent 16 ++ lit "<h3>Conditions</h3>"
        ++ indent 16 ++ lit "<p>" ++ conditions ++ lit "</p>"
        ++ indent 12)
  else Ok html.

Definition append_clauses (E : Engine) (referenced_clauses : jsval) (html : jsstring)
  : result jsstring :=
  let* nonempty :=
    and_then referenced_clauses
      (let* length := get referenced_clauses (lit "length") in gt_zero E length) in
  if nonempty then
    let html := html ++ lit "<h3>Referenced Clauses</h3>" in
    call_forEach (lit "data.referenced_clauses.forEach") referenced_clauses
      (λ clause html, let* fragment := clause_html clause in Ok (html ++ fragment)) html
  else Ok html.

(** The invariant of the event loop about session identifiers: the one on
    the page was carried by an upload request that was sent; and every
    request sent is an upload request that carries a session identifier, or
    a query request that carries the session identifier of an upload
    request sent before it. *)
Definition sessions_uploaded (w : World) : Prop :=
  (∀ sid, sessionId (page w) = Some sid →
     ∃ i u, sent w !! i = Some u ∧ upload_session u = Some sid)
  ∧ (∀ j q, sent w !! j = Some q →
       (∃ sid, upload_session q = Some sid)
       ∨ (∃ sid i u, query_session q = Some sid ∧ (i < j)%nat
                     ∧ sent w !! i = Some u ∧ upload_session u = Some sid)).

(** * Properties of the string operations *)

Lemma startsWith_spec needle s :
  startsWith needle s = true ↔ ∃ post, s = needle ++ post.
Proof.
  revert s. induction needle as [|a n IH]; intros s; simpl.
  - split; eauto.
  - destruct s as [|b s].
    + split; [done | intros [? ?]; done].
    + rewrite andb_true_iff, N.eqb_eq, IH. split.
      * intros [-> [post ->]]. eauto.
      * intros [post [= -> ->]]. eauto.
Qed.

Lemma includes_spec s needle :
  includes s needle = true ↔ ∃ pre post, s = pre ++ needle ++ post.
Proof.
  induction s as [|c s IH]; simpl.
  - rewrite orb_false_r, startsWith_spec. split.
    + intros [post ->]. by exists [], post.
    + intros (pre & post & H). destruct pre; simpl in *; [eauto | done].
  - rewrite orb_true_iff, startsWith_spec, IH. split.
    + intros [[post ->] | (pre & post & ->)].
      * by exists [], post.
      * by exists (c :: pre), post.
    + intros (pre & post & H). destruct pre as [|x pre]; simpl in H.
      * left; eauto.
      * injection H as -> ->. right; eauto.
Qed.

(** Case analysis on the comparisons that decide the lower case of a unit. *)
Ltac unit_cases :=
  unfold lower_unit, ascii_lower, plain_letter in *;
  repeat match goal with
    | |- context [?a <=? ?b] => destruct (N.leb_spec a b)
    | |- context [?a =? ?b] => destruct (N.eqb_spec a b)
    | H : context [?a <=? ?b] |- _ => destruct (N.leb_spec a b)
    | H : context [?a =? ?b] |- _ => destruct (N.eqb_spec a b)
    end;
  simpl in *.

Lemma lower_unit_plain c :
  plain_letter (ascii_lower c) = true → lower_unit c = [ascii_lower c].
Proof. intros H. unit_cases; try done; lia. Qed.

Lemma lower_unit_cases c :
  lower_unit c = [ascii_lower c]
  ∨ lower_unit c = [0x6B]
  ∨ lower_unit c = [0x69; 0x307].
Proof. unit_cases; auto. Qed.

Lemma toLowerCase_app a b : toLowerCase (a ++ b) = toLowerCase a ++ toLowerCase b.
Proof. apply flat_map_app. Qed.

Lemma toLowerCase_plain mid :
  Forall (λ c, plain_letter c = true) (map ascii_lower mid) →
  toLowerCase mid = map ascii_lower mid.
Proof.
  induction mid as [|c mid IH]; simpl; [done|].
  intros H. apply Forall_cons in H as [Hc H].
  rewrite (lower_unit_plain c Hc), IH by done. done.
Qed.

(** A plain keyword at the start of the lowered text lies over a segment at
    the start of the text, unit by unit. *)
Lemma toLowerCase_prefix kw :
  Forall (λ c, plain_letter c = true) kw →
  ∀ d post, toLowerCase d = kw ++ post →
  ∃ mid rest, d = mid ++ rest ∧ map ascii_lower mid = kw.
Proof.
  induction 1 as [|k kw Hk Hkw IH]; intros d post Hd.
  - by exists [], d.
  - destruct d as [|c d]; [done|]. simpl in Hd.
    destruct (lower_unit_cases c) as [Hc | [Hc | Hc]]; rewrite Hc in Hd;
      injection Hd as <- Hd.
    + destruct (IH d post Hd) as (mid & rest & -> & <-).
      by exists (c :: mid), rest.
    + done.
    + done.
Qed.

Lemma toLowerCase_infix kw :
  Forall (λ c, plain_letter c = true) kw → kw ≠ [] →
  ∀ d pre post, toLowerCase d = pre ++ kw ++ post →
  ∃ pre' mid post', d = pre' ++ mid ++ post' ∧ map ascii_lower mid = kw.
Proof.
  intros Hkw Hne d. induction d as [|c d IH]; intros pre post Hd.
  - destruct pre, kw; done.
  - destruct pre as [|x pre].
    + destruct (toLowerCase_prefix kw Hkw (c :: d) post Hd) as (mid & rest & -> & <-).
      by exists [], mid, rest.
    + assert (∃ pre2 post2, toLowerCase d = pre2 ++ kw ++ post2) as (pre2 & post2 & H2).
      { simpl in Hd.
        destruct (lower_unit_cases c) as [Hc | [Hc | Hc]]; rewrite Hc in Hd;
          injection Hd as _ Hd; eauto.
        destruct pre as [|y pre]; simpl in Hd.
        - destruct Hkw as [|k kw Hk _]; [done|]. injection Hd as <- _. done.
        - injection Hd as _ Hd. eauto. }
      destruct (IH _ _ H2) as (pre' & mid & post' & -> & <-).
      by exists (c :: pre'), mid, post'.
Qed.

(** For a plain keyword, [toLowerCase] followed by [includes] is containment
    up to the case of ASCII letters. *)
Lemma includes_toLowerCase d kw :
  Forall (λ c, plain_letter c = true) kw → kw ≠ [] →
  includes (toLowerCase d) kw = true ↔ contains_ci d kw.
Proof.
  intros Hkw Hne. rewrite includes_spec. split.
  - intros (pre & post & H). by eapply toLowerCase_infix.
  - intros (pre & mid & post & -> & <-).
    exists (toLowerCase pre), (toLowerCase post).
    rewrite !toLowerCase_app. rewrite (toLowerCase_plain mid Hkw). done.
Qed.

Lemma includes_keywords d :
  (includes (toLowerCase d) (lit "approved") = true ↔ contains_ci d (lit "approved"))
  ∧ (includes (toLowerCase d) (lit "covered") = true ↔ contains_ci d (lit "covered"))
  ∧ (includes (toLowerCase d) (lit "rejected") = true ↔ contains_ci d (lit "rejected"))
  ∧ (includes (toLowerCase d) (lit "not") = true ↔ contains_ci d (lit "not")).
Proof.
  repeat split; try (apply includes_toLowerCase; [by repeat constructor | done]);
    by apply includes_toLowerCase; [repeat constructor|].
Qed.

(** ** trim *)

Lemma trimStart_decompose s :
  ∃ l, s = l ++ trimStart s ∧ Forall (λ c, is_white_space c = true) l.
Proof.
  induction s as [|c s (l & Hl & Hw)]; simpl.
  - by exists [].
  - destruct (is_white_space c) eqn:Hc.
    + exists (c :: l). split; [by rewrite Hl at 1 | by constructor].
    + by exists [].
Qed.

Lemma trimStart_head s c t : trimStart s = c :: t → is_white_space c = false.
Proof.
  induction s as [|x s IH]; simpl; [done|].
  destruct (is_white_space x) eqn:Hx; [done|]. by intros [= <- _].
Qed.

Lemma trimStart_white s :
  Forall (λ c, is_white_space c = true) s → trimStart s = [].
Proof. induction 1 as [|c s Hc _ IH]; simpl; [done|]. by rewrite Hc. Qed.

Lemma trimStart_snoc a c :
  is_white_space c = false → trimStart (a ++ [c]) = trimStart a ++ [c].
Proof.
  intros Hc. induction a as [|x a IH]; simpl.
  - by rewrite Hc.
  - by destruct (is_white_space x).
Qed.

Lemma trimEnd_cons c t :
  is_white_space c = false → trimEnd (c :: t) = c :: trimEnd t.
Proof.
  intros Hc. unfold trimEnd. simpl.
  by rewrite trimStart_snoc, rev_app_distr.
Qed.

Lemma trimEnd_decompose s :
  ∃ r, s = trimEnd s ++ r ∧ Forall (λ c, is_white_space c = true) r.
Proof.
  destruct (trimStart_decompose (rev s)) as (l & Hl & Hw).
  exists (rev l). split.
  - unfold trimEnd. by rewrite <- rev_app_distr, <- Hl, rev_involutive.
  - by apply Forall_rev.
Qed.

Lemma trimEnd_last s c : last (trimEnd s) = Some c → is_white_space c = false.
Proof.
  unfold trimEnd. destruct (trimStart (rev s)) as [|x t] eqn:H; simpl; [done|].
  rewrite last_snoc. intros [= <-]. by eapply trimStart_head.
Qed.

Lemma trim_decompose s :
  ∃ l r, s = l ++ trim s ++ r
         ∧ Forall (λ c, is_white_space c = true) l
         ∧ Forall (λ c, is_white_space c = true) r.
Proof.
  destruct (trimStart_decompose s) as (l & Hl & Hwl).
  destruct (trimEnd_decompose (trimStart s)) as (r & Hr & Hwr).
  exists l, r. unfold trim. by rewrite <- Hr.
Qed.

Lemma trim_ends s :
  (∀ c t, trim s = c :: t → is_white_space c = false)
  ∧ (∀ c, last (trim s) = Some c → is_white_space c = false).
Proof.
  split.
  - intros c t. unfold trim. destruct (trimStart s) as [|x u] eqn:H; [done|].
    pose proof (trimStart_head _ _ _ H) as Hx.
    rewrite trimEnd_cons by done. by intros [= <- _].
  - intros c. apply trimEnd_last.
Qed.

Lemma trim_white s : Forall (λ c, is_white_space c = true) s ↔ trim s = [].
Proof.
  split.
  - intros H. unfold trim. by rewrite trimStart_white.
  - intros H. destruct (trim_decompose s) as (l & r & Hs & Hl & Hr).
    rewrite H in Hs. rewrite Hs. by apply Forall_app.
Qed.

(** * Properties of the runtime operations *)

Lemma lit_cons a s : lit (String a s) = N_of_ascii a :: lit s.
Proof. reflexivity. Qed.

Lemma string_of_uint_nonzero d :
  d ≠ Decimal.Nil → d ≠ Decimal.zero →
  lit (NilZero.string_of_uint d) ≠ lit "0"
  ∧ startsWith (lit "-") (lit (NilZero.string_of_uint d)) = false.
Proof.
  intros Hnil Hzero. destruct d as [|d|d|d|d|d|d|d|d|d|d]; try done.
  split; [|done]. simpl. rewrite lit_cons.
  destruct d; [done | ..]; intros [=].
Qed.

Lemma dec_length_positive (n : nat) :
  n ≠ 0%nat →
  dec (Z.of_nat n) ≠ lit "0" ∧ startsWith (lit "-") (dec (Z.of_nat n)) = false.
Proof.
  destruct n as [|n]; [done | intros _]. unfold dec.
  change (Z.to_int (Z.of_nat (S n))) with (Decimal.Pos (Pos.to_uint (Pos.of_succ_nat n))).
  apply string_of_uint_nonzero.
  - apply Unsigned.to_uint_nonnil.
  - apply Unsigned.to_uint_nonzero.
Qed.

Lemma decisionClass_string o d :
  o !! lit "decision" = Some (VStr d) →
  decisionClass (VObj o) = Ok (class_of_decision d).
Proof.
  intros H. unfold decisionClass, decision_includes, or_else, class_of_decision, get.
  rewrite H. simpl.
  destruct (includes (toLowerCase d) (lit "approved")); simpl; [done|].
  destruct (includes (toLowerCase d) (lit "covered")); simpl; [done|].
  destruct (includes (toLowerCase d) (lit "rejected")); simpl; [done|].
  destruct (includes (toLowerCase d) (lit "not")); done.
Qed.

Lemma decode_text_Some v s : decode_text v = Some s → v = Some (VStr s).
Proof. destruct v as [[]|]; simpl; congruence. Qed.

Lemma clause_html_decode v c :
  decode_clause v = Some c → clause_html v = Ok (clause_view c).
Proof.
  destruct v as [| | | | |o]; try done. simpl.
  destruct (decode_optional decode_scalar (o !! lit "clause_number")) as [n|] eqn:Hn;
    [|done]. simpl.
  destruct (decode_text (o !! lit "document_name")) as [d|] eqn:Hd; [|done]. simpl.
  destruct (decode_text (o !! lit "text")) as [t|] eqn:Ht; [|done]. simpl.
  intros [= <-]. apply decode_text_Some in Hd, Ht.
  unfold clause_html, clause_view, get. rewrite Hd, Ht. simpl.
  assert (to_string (or_default (o !! lit "clause_number") (lit "N/A"))
          = Ok (number_view n)) as ->; [|done].
  unfold or_default.
  destruct (o !! lit "clause_number") as [[| |r|s| |]|]; simpl in Hn;
    try discriminate; injection Hn as <-; simpl; try done.
  - by destruct (bool_decide (r = lit "0")).
  - by destruct (bool_decide (s = [])).
Qed.

Lemma forEach_clauses l cs html :
  mapM decode_clause l = Some cs →
  forEach_array l
    (λ clause html, let* fragment := clause_html clause in Ok (html ++ fragment)) html
  = Ok (html ++ concat (map clause_view cs)).
Proof.
  rewrite mapM_Some. intros H. revert html.
  induction H as [|v c l cs Hv _ IH]; intros html; simpl.
  - by rewrite app_nil_r.
  - rewrite (clause_html_decode v c Hv). simpl. rewrite IH. by rewrite <- app_assoc.
Qed.

Lemma conditions_decode (v : jsval) c (html : jsstring) :
  decode_optional (λ v, decode_text (Some v)) v = Some c →
  (if to_boolean v then
     let* conditions := to_string v in
     Ok (html
         ++ indent 16 ++ lit "<h3>Conditions</h3>"
         ++ indent 16 ++ lit "<p>" ++ conditions ++ lit "</p>"
         ++ indent 12)
   else Ok html)
  = Ok (html ++ conditions_view c).
Proof.
  destruct v as [[| | |s| |]|]; simpl; try discriminate; intros [= <-]; simpl;
    rewrite ?app_nil_r; try done.
  destruct s; simpl; by rewrite ?app_nil_r.
Qed.


(** * Properties of the handlers and of the renderer *)

Ltac destruct_binds :=
  repeat match goal with
    | H : context [bind ?m _] |- _ => destruct m eqn:?; cbn [bind] in H
    | H : context [if ?b then _ else _] |- _ => destruct b eqn:?
    | H : Throw _ = Ok _ |- _ => discriminate H
    | H : Ok _ = Throw _ |- _ => discriminate H
    end.

Lemma handleUpload_try_Ok o p r :
  handleUpload_try o p = Ok r →
  ∃ text,
    r = (set_queryCard_style_display (lit "block")
           (set_uploadStatus_style_color (lit "green")
              (set_uploadStatus_textContent text p)),
         [Focus_questionInput]).
Proof.
  unfold handleUpload_try, throw_unless_ok. intros H.
  destruct_binds; injection H as <-; eauto.
Qed.

Lemma throw_unless_ok_not_ok fallback r v :
  ok r = false → json r = JsonResolves v →
  throw_unless_ok fallback r =
    (let* detail := get (Some v) (lit "detail") in
     let* message := to_string (or_default detail fallback) in
     Throw (Error message)).
Proof.
  intros Hok Hjson. unfold throw_unless_ok, await_json. by rewrite Hok, Hjson.
Qed.

Lemma throw_unless_ok_ok fallback r : ok r = true → throw_unless_ok fallback r = Ok tt.
Proof. intros Hok. unfold throw_unless_ok. by rewrite Hok. Qed.

Lemma handleQuery_begin_Await p sid :
  trim (questionInput_value p) ≠ [] → sessionId p = Some sid → sid ≠ [] →
  handleQuery_begin p =
    Await (set_resultsContent_innerHTML []
             (set_loader_style_display (lit "block")
                (set_resultsCard_style_display (lit "block") p)))
      []
      {| url := API_BASE_URL ++ lit "/query/";
         method := lit "POST";
         headers := [(lit "Content-Type", lit "application/json")];
         body := JsonBody (VObj (<[lit "question" := VStr (trim (questionInput_value p))]>
                                   (<[lit "session_id" := VStr sid]> ∅))) |}.
Proof.
  intros Hq Hs Hne. unfold handleQuery_begin, sessionId_value. cbn [to_boolean].
  rewrite bool_decide_eq_false_2 by done. cbn [negb].
  rewrite Hs. cbn [to_boolean].
  rewrite bool_decide_eq_false_2 by done. cbn [negb].
  cbn [sessionId set_resultsContent_innerHTML set_loader_style_display
         set_resultsCard_style_display]. by rewrite Hs.
Qed.

Lemma forEach_array_appends l (html html' : jsstring) :
  forEach_array l
    (λ clause html, let* fragment := clause_html clause in Ok (html ++ fragment)) html
  = Ok html' →
  ∃ rest, html' = html ++ rest.
Proof.
  revert html. induction l as [|x l IH]; intros html; simpl.
  - intros [= <-]. exists []. by rewrite app_nil_r.
  - destruct (clause_html x) as [f|]; [|done]. simpl.
    intros H. apply IH in H as [rest ->]. exists (f ++ rest). by rewrite app_assoc.
Qed.


Section WithEngine.

Context (E : Engine).

(** An array is non-empty for [length > 0] exactly when it has an element. *)
Lemma array_length_gt_zero (l : list value) :
  (let* length := get (Some (VArr l)) (lit "length") in gt_zero E length)
  = Ok (negb (bool_decide (l = []))).
Proof.
  unfold get. rewrite bool_decide_eq_true_2 by done. cbn [bind gt_zero].
  destruct l as [|x l]; [done|].
  destruct (dec_length_positive (length (x :: l))) as [H0 Hm]; [done|].
  rewrite Hm, (bool_decide_eq_false_2 _ H0). done.
Qed.

Lemma clauses_decode (v : jsval) rc (html : jsstring) :
  decode_optional decode_clauses v = Some rc →
  (let* nonempty :=
     and_then v (let* length := get v (lit "length") in gt_zero E length) in
   if nonempty then
     call_forEach (lit "data.referenced_clauses.forEach") v
       (λ clause html, let* fragment := clause_html clause in Ok (html ++ fragment))
       (html ++ lit "<h3>Referenced Clauses</h3>")
   else Ok html)
  = Ok (html ++ clauses_view rc).
Proof.
  destruct v as [[| | | |l|]|]; unfold decode_optional, decode_clauses;
    try discriminate.
  - intros [= <-]. simpl. by rewrite app_nil_r.
  - destruct (mapM decode_clause l) as [cs|] eqn:Hcs; [|done].
    intros [= <-]. unfold and_then. cbn [to_boolean].
    rewrite array_length_gt_zero. cbn [bind].
    destruct l as [|x l].
    + apply mapM_Some, Forall2_nil_inv_l in Hcs as ->. simpl. by rewrite app_nil_r.
    + rewrite bool_decide_eq_false_2 by done. cbn [negb call_forEach].
      rewrite (forEach_clauses _ _ _ Hcs).
      apply mapM_Some in Hcs. destruct cs as [|c cs]; [by inversion Hcs|].
      simpl. by rewrite <- !app_assoc.
  - intros [= <-]. simpl. by rewrite app_nil_r.
Qed.

Lemma displayResults_html_decode data r :
  decode data = Some r → displayResults_html E data = Ok (view r).
Proof.
  destruct data as [| | | | |o]; try done. simpl.
  destruct (decode_text (o !! lit "decision")) as [d|] eqn:Hd; [|done]. simpl.
  destruct (decode_text (o !! lit "justification")) as [j|] eqn:Hj; [|done]. simpl.
  destruct (decode_optional _ (o !! lit "conditions")) as [c|] eqn:Hc; [|done]. simpl.
  destruct (decode_optional _ (o !! lit "referenced_clauses")) as [rc|] eqn:Hrc; [|done].
  simpl. intros [= <-]. apply decode_text_Some in Hd, Hj.
  unfold displayResults_html. rewrite (decisionClass_string o d Hd).
  unfold get at 1 2 3 4. rewrite Hd, Hj.
  cbn [bind to_string to_string_value].
  rewrite (conditions_decode _ _ _ Hc). cbn [bind].
  rewrite (clauses_decode _ _ _ Hrc).
  unfold view, decision_view. cbn [decision justification conditions referenced_clauses].
  by rewrite <- !app_assoc.
Qed.

Lemma displayResults_html_class data html :
  displayResults_html E data = Ok html →
  ∃ class rest,
    decisionClass data = Ok class
    ∧ html = indent 12 ++ lit "<div class=" ++ dq ++ lit "decision " ++ class ++ dq
             ++ lit ">" ++ rest.
Proof.
  unfold displayResults_html. intros H.
  destruct (decisionClass data) as [class|]; [|done]. cbn [bind] in H.
  exists class.
  destruct (get (Some data) (lit "decision")) as [d|]; [|done]. cbn [bind] in H.
  destruct (to_string d) as [ds|]; [|done]. cbn [bind] in H.
  destruct (get (Some data) (lit "justification")) as [j|]; [|done]. cbn [bind] in H.
  destruct (to_string j) as [js|]; [|done]. cbn [bind] in H.
  destruct (get (Some data) (lit "conditions")) as [c|]; [|done]. cbn [bind] in H.
  match type of H with
  | bind ?m _ = _ => assert (∃ rest, m = Ok (indent 12 ++ lit "<div class=" ++ dq
       ++ lit "decision " ++ class ++ dq ++ lit ">" ++ rest) ∨ ∃ e, m = Throw e) as Hm
  end.
  { destruct (to_boolean c); [|eexists; left; reflexivity].
    destruct (to_string c) as [cs|e]; [|exists []; right; by exists e]. cbn [bind].
    eexists. left. f_equal. rewrite <- !app_assoc. reflexivity. }
  destruct Hm as [rest [Hm | [e Hm]]]; rewrite Hm in H; [|done]. cbn [bind] in H.
  destruct (get (Some data) (lit "referenced_clauses")) as [rc|]; [|done].
  cbn [bind] in H.
  destruct (and_then rc _) as [[]|]; [| |done]; cbn [bind] in H.
  - destruct rc as [[]|]; try done. cbn [call_forEach] in H.
    apply forEach_array_appends in H as [rest' ->].
    eexists. split; [done|]. rewrite <- !app_assoc. reflexivity.
  - injection H as <-. eexists. split; reflexivity.
Qed.

Lemma handleUpload_settle_keeps o p :
  sessionId (handleUpload_settle E o p).1 = sessionId p
  ∧ questionInput_value (handleUpload_settle E o p).1 = questionInput_value p.
Proof.
  unfold handleUpload_settle.
  destruct (handleUpload_try o p) as [r|e] eqn:H; [|done].
  apply handleUpload_try_Ok in H as [text ->]. done.
Qed.

Lemma handleUpload_keeps_sessionId now network p p1 effects request :
  handleUpload_begin now p = Await p1 effects request →
  sessionId (handleUpload E now network p).1.1 = sessionId p1.
Proof.
  intros H. unfold handleUpload. rewrite H.
  destruct (handleUpload_settle_keeps (network request) p1) as [Hs _].
  by destruct (handleUpload_settle E (network request) p1).
Qed.

End WithEngine.

(** * The result renderer: classification *)

(** C1, as amended.  A response whose decision text is "Not approved" is put
    in the positive category: the text contains "approved" as well as "not",
    and the check for "approved" or "covered" is evaluated before the check
    for "rejected" or "not", so that whenever the first check matches the
    category is positive, whatever the second would find. *)
Theorem not_approved_is_positive (o : gmap jsstring value) :
  o !! lit "decision" = Some (VStr (lit "Not approved")) →
  decisionClass (VObj o) = Ok (class_name Positive)
  ∧ contains_ci (lit "Not approved") (lit "approved")
  ∧ contains_ci (lit "Not approved") (lit "not")
  ∧ ∀ (o' : gmap jsstring value) (d : jsstring),
      o' !! lit "decision" = Some (VStr d) →
      contains_ci d (lit "approved") ∨ contains_ci d (lit "covered") →
      decisionClass (VObj o') = Ok (class_name Positive).
Proof.
  intros Hd. split; [|split; [|split]].
  - by rewrite (decisionClass_string o _ Hd).
  - by exists (lit "Not "), (lit "approved"), [].
  - by exists [], (lit "Not"), (lit " approved").
  - intros o' d Hd' H. rewrite (decisionClass_string o' d Hd').
    unfold class_of_decision. destruct (includes_keywords d) as (Ha & Hc & _).
    destruct H as [H | H]; [apply Ha in H | apply Hc in H]; rewrite H;
      by rewrite ?orb_true_r.
Qed.

Lemma not_approved_is_positive_witness :
  (list_to_map [(lit "decision", VStr (lit "Not approved"));
                (lit "justification", VStr (lit "The waiting period has not passed."))]
     : gmap jsstring value) !! lit "decision" = Some (VStr (lit "Not approved"))
  ∧ decisionClass not_approved = Ok (class_name Positive).
Proof.
  split; [reflexivity|].
  apply (not_approved_is_positive
           (list_to_map [(lit "decision", VStr (lit "Not approved"));
                         (lit "justification",
                          VStr (lit "The waiting period has not passed."))])).
  reflexivity.
Defined.

(** C1 as stated fails: the response with the decision text "Not approved"
    gets the class of the positive category, not that of the negative one. *)
Lemma not_approved_is_not_negative :
  decisionClass not_approved = Ok (lit "Approved")
  ∧ decisionClass not_approved ≠ Ok (class_name Negative).
Proof. split; [reflexivity | discriminate]. Qed.

(** C2.  The renderer classifies the decision text without regard to the
    case of its letters: positive when it contains "approved" or "covered";
    otherwise negative when it contains "rejected" or "not"; otherwise
    neutral.  The class of the category is the one that the rendered view
    carries. *)
Theorem decisionClass_by_keywords (o : gmap jsstring value) (d : jsstring) :
  o !! lit "decision" = Some (VStr d) →
  let positive := contains_ci d (lit "approved") ∨ contains_ci d (lit "covered") in
  let negative := contains_ci d (lit "rejected") ∨ contains_ci d (lit "not") in
  (positive → decisionClass (VObj o) = Ok (class_name Positive))
  ∧ (¬ positive → negative → decisionClass (VObj o) = Ok (class_name Negative))
  ∧ (¬ positive → ¬ negative → decisionClass (VObj o) = Ok (class_name Neutral))
  ∧ ∀ E html, displayResults_html E (VObj o) = Ok html →
      ∃ class rest,
        decisionClass (VObj o) = Ok class
        ∧ html = indent 12 ++ lit "<div class=" ++ dq ++ lit "decision " ++ class
                 ++ dq ++ lit ">" ++ rest.
Proof.
  intros Hd positive negative. subst positive negative.
  rewrite (decisionClass_string o d Hd). unfold class_of_decision.
  destruct (includes_keywords d) as (Ha & Hc & Hr & Hn).
  split; [|split; [|split]].
  - destruct (includes _ (lit "approved")), (includes _ (lit "covered"));
      intuition (done || discriminate).
  - destruct (includes _ (lit "approved")), (includes _ (lit "covered")),
      (includes _ (lit "rejected")), (includes _ (lit "not"));
      intuition (done || discriminate).
  - destruct (includes _ (lit "approved")), (includes _ (lit "covered")),
      (includes _ (lit "rejected")), (includes _ (lit "not"));
      intuition (done || discriminate).
  - intros E html H. apply displayResults_html_class in H as (class & rest & H & ->).
    rewrite (decisionClass_string o d Hd) in H. by exists class, rest.
Qed.

Lemma decisionClass_by_keywords_witness :
  (list_to_map [(lit "decision", VStr (lit "Claim REJECTED"))]
     : gmap jsstring value) !! lit "decision" = Some (VStr (lit "Claim REJECTED"))
  ∧ ¬ (contains_ci (lit "Claim REJECTED") (lit "approved")
       ∨ contains_ci (lit "Claim REJECTED") (lit "covered"))
  ∧ (contains_ci (lit "Claim REJECTED") (lit "rejected")
     ∨ contains_ci (lit "Claim REJECTED") (lit "not"))
  ∧ decisionClass (obj [(lit "decision", VStr (lit "Claim REJECTED"))])
    = Ok (class_name Negative).
Proof.
  assert (¬ (contains_ci (lit "Claim REJECTED") (lit "approved")
             ∨ contains_ci (lit "Claim REJECTED") (lit "covered"))) as Hn.
  { destruct (includes_keywords (lit "Claim REJECTED")) as (Ha & Hc & _).
    intros [H | H]; [apply Ha in H | apply Hc in H]; discriminate H. }
  assert (contains_ci (lit "Claim REJECTED") (lit "rejected")
          ∨ contains_ci (lit "Claim REJECTED") (lit "not")) as Hr.
  { left. by exists (lit "Claim "), (lit "REJECTED"), []. }
  split; [reflexivity|]. split; [exact Hn|]. split; [exact Hr|].
  exact (proj1 (proj2 (decisionClass_by_keywords
                         (list_to_map [(lit "decision", VStr (lit "Claim REJECTED"))])
                         (lit "Claim REJECTED") eq_refl)) Hn Hr).
Defined.

(** * The upload flow *)

(** C3.  With no file selected, the upload handler returns before any
    network call, having set the status text to the request to select a
    file, and leaves the session identifier as it was. *)
Theorem handleUpload_without_file (now : Z) (p : Page) :
  fileInput_files p = [] →
  ∃ p', handleUpload_begin now p = Done p' []
        ∧ (∀ E network, handleUpload E now network p = (p', [], []))
        ∧ uploadStatus_textContent p' = lit "Please select a file first."
        ∧ sessionId p' = sessionId p.
Proof.
  intros H. unfold handleUpload, handleUpload_begin. rewrite H. cbn [head].
  eexists. split; [reflexivity|]. split; [reflexivity|]. split; reflexivity.
Qed.

Lemma handleUpload_without_file_witness :
  fileInput_files fresh_page = []
  ∧ ∃ p', handleUpload_begin 1730000000000 fresh_page = Done p' []
          ∧ (∀ E network, handleUpload E 1730000000000 network fresh_page = (p', [], []))
          ∧ uploadStatus_textContent p' = lit "Please select a file first."
          ∧ sessionId p' = sessionId fresh_page.
Proof.
  split; [reflexivity|].
  apply (handleUpload_without_file 1730000000000 fresh_page). reflexivity.
Defined.

(** C6.  When the upload response has a success status and its body is an
    object whose [message] is a string, such as [{message: "Ready"}], the
    status text becomes that string, the query section is displayed, and the
    question input is focused. *)
Theorem handleUpload_settle_success (E : Engine) (r : Response)
    (o : gmap jsstring value) (message : jsstring) (p : Page) :
  ok r = true →
  json r = JsonResolves (VObj o) →
  o !! lit "message" = Some (VStr message) →
  ∃ p', handleUpload_settle E (FetchResolves r) p = (p', [Focus_questionInput])
        ∧ uploadStatus_textContent p' = message
        ∧ uploadStatus_style_color p' = lit "green"
        ∧ queryCard_style_display p' = lit "block".
Proof.
  intros Hok Hjson Hm.
  unfold handleUpload_settle, handleUpload_try, await_fetch. cbn [bind].
  rewrite (throw_unless_ok_ok _ r Hok). unfold await_json. rewrite Hjson.
  cbn [bind get]. rewrite Hm. cbn [bind textContent_of to_string to_string_value].
  eexists. split; [reflexivity|]. by repeat split.
Qed.

Lemma handleUpload_settle_success_witness :
  ok ready_response = true
  ∧ ∃ p', handleUpload_settle V8.engine (FetchResolves ready_response) page_with_file
          = (p', [Focus_questionInput])
          ∧ uploadStatus_textContent p' = lit "Ready"
          ∧ uploadStatus_style_color p' = lit "green"
          ∧ queryCard_style_display p' = lit "block".
Proof.
  split; [reflexivity|].
  apply (handleUpload_settle_success V8.engine ready_response
           (list_to_map [(lit "message", VStr (lit "Ready"))]));
    reflexivity.
Defined.

(** C7, as amended.  When the upload response has a non-success status, the
    status text becomes "Error: " followed by the [detail] of the body when
    the body is an object whose [detail] is a non-empty string, such as
    "bad file", and "Error: Upload failed" when the body is JSON other than
    null from which no [detail] can be read; when the body is JSON null or
    cannot be read as JSON, it becomes "Error: " followed by the text of the
    runtime error.  In each case the query section is not touched and
    nothing is focused. *)
Theorem handleUpload_settle_failure (E : Engine) (r : Response) (p : Page) :
  ok r = false →
  (∀ (o : gmap jsstring value) detail,
     json r = JsonResolves (VObj o) →
     o !! lit "detail" = Some (VStr detail) → detail ≠ [] →
     uploadStatus_textContent (handleUpload_settle E (FetchResolves r) p).1
     = lit "Error: " ++ detail)
  ∧ (∀ v, json r = JsonResolves v →
     get (Some v) (lit "detail") = Ok None →
     uploadStatus_textContent (handleUpload_settle E (FetchResolves r) p).1
     = lit "Error: Upload failed")
  ∧ (json r = JsonResolves VNull →
     uploadStatus_textContent (handleUpload_settle E (FetchResolves r) p).1
     = lit "Error: " ++ type_error_message E (ReadOfNullish Null (lit "detail")))
  ∧ (∀ m, json r = JsonRejects m →
     uploadStatus_textContent (handleUpload_settle E (FetchResolves r) p).1
     = lit "Error: " ++ m)
  ∧ queryCard_style_display (handleUpload_settle E (FetchResolves r) p).1
    = queryCard_style_display p
  ∧ (handleUpload_settle E (FetchResolves r) p).2 = [].
Proof.
  intros Hok.
  unfold handleUpload_settle, handleUpload_try, await_fetch. cbn [bind].
  split; [|split; [|split; [|split]]].
  - intros o detail Hjson Hd Hne.
    rewrite (throw_unless_ok_not_ok _ r _ Hok Hjson). cbn [get bind].
    rewrite Hd. unfold or_default. cbn [to_boolean].
    rewrite bool_decide_eq_false_2 by done. done.
  - intros v Hjson Hd.
    rewrite (throw_unless_ok_not_ok _ r _ Hok Hjson). by rewrite Hd.
  - intros Hjson. by rewrite (throw_unless_ok_not_ok _ r _ Hok Hjson).
  - intros m Hjson. unfold throw_unless_ok, await_json. by rewrite Hok, Hjson.
  - unfold throw_unless_ok. rewrite Hok. cbn [negb].
    destruct (await_json r) as [v|]; cbn [bind]; [|done].
    destruct (get (Some v) (lit "detail")) as [d|]; cbn [bind]; [|done].
    by destruct (to_string (or_default d (lit "Upload failed"))).
Qed.

Lemma handleUpload_settle_failure_witness :
  ok bad_file_response = false
  ∧ ok no_detail_response = false
  ∧ uploadStatus_textContent
      (handleUpload_settle V8.engine (FetchResolves bad_file_response) page_with_file).1
    = lit "Error: bad file"
  ∧ uploadStatus_textContent
      (handleUpload_settle V8.engine (FetchResolves no_detail_response) page_with_file).1
    = lit "Error: Upload failed".
Proof.
  split; [reflexivity|]. split; [reflexivity|]. split.
  - apply (proj1 (handleUpload_settle_failure V8.engine bad_file_response
                    page_with_file eq_refl)
             (list_to_map [(lit "detail", VStr (lit "bad file"))]));
      [reflexivity | reflexivity | discriminate].
  - apply (proj1 (proj2 (handleUpload_settle_failure V8.engine no_detail_response
                           page_with_file eq_refl))
             (obj []));
      reflexivity.
Defined.

(** C7 as stated fails: a failure body that is JSON null, or one that is
    not JSON, carries no [detail], and the status text is then the text of
    the runtime error, not the generic message. *)
Lemma failure_without_detail_not_generic :
  ok {| status := 500; json := JsonResolves VNull |} = false
  ∧ uploadStatus_textContent
      (handleUpload_settle V8.engine
         (FetchResolves {| status := 500; json := JsonResolves VNull |})
         page_with_file).1
    = lit "Error: Cannot read properties of null (reading 'detail')"
  ∧ uploadStatus_textContent
      (handleUpload_settle V8.engine
         (FetchResolves {| status := 500; json := JsonResolves VNull |})
         page_with_file).1
    ≠ lit "Error: Upload failed"
  ∧ uploadStatus_textContent
      (handleUpload_settle V8.engine
         (FetchResolves
            {| status := 502;
               json := JsonRejects (lit "Unexpected token < in JSON at position 0") |})
         page_with_file).1
    = lit "Error: Unexpected token < in JSON at position 0".
Proof. split; [reflexivity|]. split; [reflexivity|]. split; [discriminate | reflexivity]. Qed.

(** C9.  With a file selected, the upload handler sets the session
    identifier to "session_" followed by the current time before it calls
    [fetch], and the request carries that identifier.  Nothing that follows
    changes it, whether the call succeeds or fails; so after a failed upload
    the identifier is still set, and a query with a question then passes the
    check for a session and sends the identifier. *)
Theorem handleUpload_sets_sessionId (now : Z) (p : Page) (file : File)
    (files : list File) :
  fileInput_files p = file :: files →
  let sid := lit "session_" ++ dec now in
  ∃ p1 request,
    handleUpload_begin now p = Await p1 [] request
    ∧ sessionId p1 = Some sid
    ∧ body request
      = FormDataBody [(lit "file", FileEntry file); (lit "session_id", TextEntry sid)]
    ∧ (∀ E o, sessionId (handleUpload_settle E o p1).1 = Some sid)
    ∧ (∀ E network, sessionId (handleUpload E now network p).1.1 = Some sid)
    ∧ (∀ E o error question,
         handleUpload_try o p1 = Throw error →
         trim question ≠ [] →
         ∃ p3 (fields : gmap jsstring value),
           handleQuery_begin
             (set_questionInput_value question (handleUpload_settle E o p1).1)
           = Await p3 []
               {| url := API_BASE_URL ++ lit "/query/";
                  method := lit "POST";
                  headers := [(lit "Content-Type", lit "application/json")];
                  body := JsonBody (VObj fields) |}
           ∧ fields !! lit "session_id" = Some (VStr sid)).
Proof.
  intros Hf sid.
  set (p1 := set_uploadStatus_style_color (lit "orange")
               (set_uploadStatus_textContent (lit "Uploading and processing...")
                  (set_sessionId (Some sid) p))).
  assert (∃ request,
            handleUpload_begin now p = Await p1 [] request
            ∧ body request = FormDataBody [(lit "file", FileEntry file);
                                           (lit "session_id", TextEntry sid)])
    as (request & Hb & Hbody).
  { eexists. unfold handleUpload_begin. rewrite Hf. split; reflexivity. }
  exists p1, request.
  split; [exact Hb|]. split; [reflexivity|]. split; [exact Hbody|].
  split; [|split].
  - intros E o. by rewrite (proj1 (handleUpload_settle_keeps E o p1)).
  - intros E network. by rewrite (handleUpload_keeps_sessionId E _ _ _ _ _ _ Hb).
  - intros E o error question _ Hq.
    destruct (handleUpload_settle_keeps E o p1) as [Hs _].
    eexists _, _. split.
    + apply (handleQuery_begin_Await _ sid); [exact Hq | exact Hs | discriminate].
    + rewrite lookup_insert_ne by done. apply lookup_insert_eq.
Qed.

Lemma handleUpload_sets_sessionId_witness :
  fileInput_files page_with_file = [policy_pdf]
  ∧ ∃ p1 request,
      handleUpload_begin 1730000000000 page_with_file = Await p1 [] request
      ∧ sessionId p1 = Some (lit "session_1730000000000")
      ∧ sessionId (handleUpload V8.engine 1730000000000 offline page_with_file).1.1
        = Some (lit "session_1730000000000").
Proof.
  split; [reflexivity|].
  destruct (handleUpload_sets_sessionId 1730000000000 page_with_file policy_pdf []
              eq_refl) as (p1 & request & Hb & Hs & _ & _ & Hk & _).
  exists p1, request. split; [exact Hb|]. split; [exact Hs|]. apply Hk.
Defined.

(** * The query flow *)

(** C4.  When the question is empty or no session identifier exists, the
    query handler raises an alert and returns: no network call is made and
    the page, the results area included, is left as it was. *)
Theorem handleQuery_without_question_or_session (p : Page) :
  questionInput_value p = [] ∨ sessionId p = None →
  ∃ message,
    handleQuery_begin p = Done p [Alert message]
    ∧ ∀ E network, handleQuery E network p = (p, [Alert message], []).
Proof.
  intros H. unfold handleQuery, handleQuery_begin.
  destruct (to_boolean (Some (VStr (trim (questionInput_value p))))) eqn:Hq;
    cbn [negb]; [|eauto].
  destruct H as [H | H].
  - by rewrite H in Hq.
  - unfold sessionId_value. rewrite H. cbn [to_boolean negb]. eauto.
Qed.

Lemma handleQuery_without_question_or_session_witness :
  (questionInput_value fresh_page = [] ∨ sessionId fresh_page = None)
  ∧ (questionInput_value page_with_file = [] ∨ sessionId page_with_file = None)
  ∧ (∃ message,
       handleQuery_begin fresh_page = Done fresh_page [Alert message]
       ∧ ∀ E network, handleQuery E network fresh_page = (fresh_page, [Alert message], []))
  ∧ (∃ message,
       handleQuery_begin page_with_file = Done page_with_file [Alert message]
       ∧ ∀ E network,
           handleQuery E network page_with_file = (page_with_file, [Alert message], [])).
Proof.
  split; [by left|]. split; [by right|]. split.
  - apply (handleQuery_without_question_or_session fresh_page). by left.
  - apply (handleQuery_without_question_or_session page_with_file). by right.
Defined.

(** C10.  The query handler checks and sends the trimmed question: a
    question of white space only is answered like an empty one, with the
    alert and no network call; otherwise, with a session, the [question]
    of the request body is the input value without the white space at its
    two ends. *)
Theorem handleQuery_trims_question (p : Page) :
  (Forall (λ c, is_white_space c = true) (questionInput_value p) →
   handleQuery_begin p = Done p [Alert (lit "Please enter a question.")]
   ∧ ∀ E network,
       handleQuery E network p = (p, [Alert (lit "Please enter a question.")], []))
  ∧ (∀ sid, trim (questionInput_value p) ≠ [] → sessionId p = Some sid → sid ≠ [] →
     ∃ p' (fields : gmap jsstring value),
       handleQuery_begin p
       = Await p' []
           {| url := API_BASE_URL ++ lit "/query/";
              method := lit "POST";
              headers := [(lit "Content-Type", lit "application/json")];
              body := JsonBody (VObj fields) |}
       ∧ fields !! lit "question" = Some (VStr (trim (questionInput_value p)))
       ∧ fields !! lit "session_id" = Some (VStr sid))
  ∧ (∃ l r, questionInput_value p = l ++ trim (questionInput_value p) ++ r
            ∧ Forall (λ c, is_white_space c = true) l
            ∧ Forall (λ c, is_white_space c = true) r)
  ∧ (∀ c t, trim (questionInput_value p) = c :: t → is_white_space c = false)
  ∧ (∀ c, last (trim (questionInput_value p)) = Some c → is_white_space c = false).
Proof.
  split; [|split; [|split]].
  - intros H. apply trim_white in H. unfold handleQuery, handleQuery_begin.
    by rewrite H.
  - intros sid Hq Hs Hne. eexists _, _. split.
    + by apply (handleQuery_begin_Await p sid).
    + split; [apply lookup_insert_eq|].
      rewrite lookup_insert_ne by done. apply lookup_insert_eq.
  - apply trim_decompose.
  - apply trim_ends.
Qed.

Lemma handleQuery_trims_question_witness :
  handleQuery_begin (set_questionInput_value (lit "   ") page_with_session)
  = Done (set_questionInput_value (lit "   ") page_with_session)
      [Alert (lit "Please enter a question.")]
  ∧ ∃ p' (fields : gmap jsstring value),
      handleQuery_begin page_with_session
      = Await p' []
          {| url := API_BASE_URL ++ lit "/query/";
             method := lit "POST";
             headers := [(lit "Content-Type", lit "application/json")];
             body := JsonBody (VObj fields) |}
      ∧ fields !! lit "question" = Some (VStr (lit "Is knee surgery covered?")).
Proof.
  split.
  - apply (handleQuery_trims_question
             (set_questionInput_value (lit "   ") page_with_session)).
    by repeat constructor.
  - destruct (proj1 (proj2 (handleQuery_trims_question page_with_session))
                (lit "session_1730000000000"))
      as (p' & fields & Hb & Hq & _); [discriminate | reflexivity | discriminate |].
    exists p', fields. split; [exact Hb | exact Hq].
Defined.

(** C5.  When the query call settles, the loading indicator is hidden,
    whether the try block completed or threw.  When it threw, the results
    area holds the inline error message with the text of the error: the
    reason of a rejected [fetch] or [response.json], or, after a response
    with a non-success status, the [detail] of its body. *)
Theorem handleQuery_settle_hides_loader (E : Engine) (o : fetch_outcome) (p : Page) :
  loader_style_display (handleQuery_settle E o p) = lit "none"
  ∧ (∀ error, handleQuery_try E o p = Throw error →
       resultsContent_innerHTML (handleQuery_settle E o p)
       = lit "<p style=" ++ dq ++ lit "color:red;" ++ dq ++ lit ">Error: "
         ++ message_of E error ++ lit "</p>")
  ∧ (∀ p', handleQuery_try E o p = Ok p' →
       resultsContent_innerHTML (handleQuery_settle E o p) = resultsContent_innerHTML p')
  ∧ (∀ m, o = FetchRejects m → handleQuery_try E o p = Throw (Error m))
  ∧ (∀ r m, o = FetchResolves r → json r = JsonRejects m →
       handleQuery_try E o p = Throw (Error m))
  ∧ (∀ r (body : gmap jsstring value) detail,
       o = FetchResolves r → ok r = false → json r = JsonResolves (VObj body) →
       body !! lit "detail" = Some (VStr detail) → detail ≠ [] →
       handleQuery_try E o p = Throw (Error detail)).
Proof.
  split; [|split; [|split; [|split; [|split]]]].
  - unfold handleQuery_settle. by destruct (handleQuery_try E o p).
  - intros error H. unfold handleQuery_settle. by rewrite H.
  - intros p' H. unfold handleQuery_settle. by rewrite H.
  - by intros m ->.
  - intros r m -> Hj. unfold handleQuery_try, throw_unless_ok, await_json.
    cbn [await_fetch bind]. rewrite Hj. by destruct (ok r).
  - intros r body detail -> Hok Hj Hd Hne. unfold handleQuery_try.
    cbn [await_fetch bind]. rewrite (throw_unless_ok_not_ok _ r _ Hok Hj).
    cbn [get bind]. rewrite Hd. unfold or_default. cbn [to_boolean].
    by rewrite bool_decide_eq_false_2.
Qed.

Lemma handleQuery_settle_hides_loader_witness :
  handleQuery_try V8.engine (FetchRejects (lit "Failed to fetch")) page_with_session
  = Throw (Error (lit "Failed to fetch"))
  ∧ loader_style_display
      (handleQuery_settle V8.engine (FetchRejects (lit "Failed to fetch"))
         page_with_session)
    = lit "none"
  ∧ resultsContent_innerHTML
      (handleQuery_settle V8.engine (FetchRejects (lit "Failed to fetch"))
         page_with_session)
    = lit "<p style=" ++ dq ++ lit "color:red;" ++ dq
      ++ lit ">Error: Failed to fetch</p>".
Proof.
  split; [reflexivity|].
  destruct (handleQuery_settle_hides_loader V8.engine
              (FetchRejects (lit "Failed to fetch")) page_with_session)
    as (Hl & He & _).
  split; [exact Hl|]. exact (He _ eq_refl).
Defined.

(** * The result renderer: clauses and conditions *)

(** C8, as amended.  For every response of the data model the renderer
    writes the view of the response into the results area: the section of
    the referenced clauses only when the sequence is present and non-empty,
    each clause in the order received with its document name and its quoted
    text, and with its clause number when that is truthy and the placeholder
    when it is absent, null, the empty string or 0; the conditions only when
    they are present. *)
Theorem displayResults_shows_view (E : Engine) (data : value) (r : QueryResponse)
    (p : Page) :
  decode data = Some r →
  displayResults E data p = Ok (set_resultsContent_innerHTML (view r) p)
  ∧ view r = decision_view r ++ conditions_view (conditions r)
             ++ clauses_view (referenced_clauses r)
  ∧ (referenced_clauses r = None ∨ referenced_clauses r = Some [] →
     clauses_view (referenced_clauses r) = [])
  ∧ (∀ c l, referenced_clauses r = Some (c :: l) →
     clauses_view (referenced_clauses r)
     = lit "<h3>Referenced Clauses</h3>" ++ concat (map clause_view (c :: l)))
  ∧ (conditions r = None → conditions_view (conditions r) = []).
Proof.
  intros H. split; [|split; [|split; [|split]]].
  - unfold displayResults. by rewrite (displayResults_html_decode E data r H).
  - reflexivity.
  - by intros [-> | ->].
  - by intros c l ->.
  - by intros ->.
Qed.

Lemma displayResults_shows_view_witness :
  decode two_clauses = Some two_clauses_response
  ∧ displayResults V8.engine two_clauses fresh_page
    = Ok (set_resultsContent_innerHTML (view two_clauses_response) fresh_page).
Proof.
  split; [reflexivity|].
  apply (displayResults_shows_view V8.engine two_clauses two_clauses_response fresh_page).
  reflexivity.
Defined.

(** The view of the response with two clauses: both clauses, in the order
    received, the second with the placeholder for its absent number. *)
Example view_two_clauses :
  view two_clauses_response
  = indent 12 ++ lit "<div class=" ++ dq ++ lit "decision Approved" ++ dq
    ++ lit ">Approved for coverage</div>"
    ++ indent 12 ++ lit "<h3>Justification</h3>"
    ++ indent 12 ++ lit "<p>Both clauses apply.</p>"
    ++ indent 8
    ++ lit "<h3>Referenced Clauses</h3>"
    ++ indent 20 ++ lit "<div class=" ++ dq ++ lit "referenced-clause" ++ dq ++ lit ">"
    ++ indent 24 ++ lit "<strong>Clause 4.2 (from policy.pdf)</strong>"
    ++ indent 24 ++ lit "<p>" ++ dq ++ lit "Knee surgery is covered." ++ dq ++ lit "</p>"
    ++ indent 20 ++ lit "</div>"
    ++ indent 16
    ++ indent 20 ++ lit "<div class=" ++ dq ++ lit "referenced-clause" ++ dq ++ lit ">"
    ++ indent 24 ++ lit "<strong>Clause N/A (from annex.pdf)</strong>"
    ++ indent 24 ++ lit "<p>" ++ dq ++ lit "After 24 months." ++ dq ++ lit "</p>"
    ++ indent 20 ++ lit "</div>"
    ++ indent 16.
Proof. vm_compute. reflexivity. Qed.

(** C8 as stated fails: a clause whose number is present, the number 0, is
    rendered with the placeholder and not with its number. *)
Lemma clause_number_zero_shows_placeholder :
  get (Some clause_zero) (lit "clause_number") = Ok (Some (VNum (lit "0")))
  ∧ displayResults_html V8.engine zero_clause_response
    = Ok (indent 12 ++ lit "<div class=" ++ dq ++ lit "decision Approved" ++ dq
          ++ lit ">Covered</div>"
          ++ indent 12 ++ lit "<h3>Justification</h3>"
          ++ indent 12 ++ lit "<p>See the definitions.</p>"
          ++ indent 8
          ++ lit "<h3>Referenced Clauses</h3>"
          ++ indent 20 ++ lit "<div class=" ++ dq ++ lit "referenced-clause" ++ dq
          ++ lit ">"
          ++ indent 24 ++ lit "<strong>Clause N/A (from policy.pdf)</strong>"
          ++ indent 24 ++ lit "<p>" ++ dq ++ lit "Definitions." ++ dq ++ lit "</p>"
          ++ indent 20 ++ lit "</div>"
          ++ indent 16).
Proof. split; vm_compute; reflexivity. Qed.

(** * Two whole runs

    An upload that the service accepts leaves the page ready for a query,
    and the query on that page sends the trimmed question with the session
    identifier and shows the view of the answer. *)

Example handleUpload_accepted :
  handleUpload V8.engine 1730000000000 service page_with_file
  = (page_with_session,
     [Focus_questionInput],
     [ {| url := lit "http://127.0.0.1:8000/upload_document/";
          method := lit "POST";
          headers := [];
          body := FormDataBody
                    [(lit "file", FileEntry policy_pdf);
                     (lit "session_id", TextEntry (lit "session_1730000000000"))] |} ]).
Proof. vm_compute. reflexivity. Qed.

Example handleQuery_answered :
  let '(p, effects, requests) := handleQuery V8.engine service page_with_session in
  resultsContent_innerHTML p = view two_clauses_response
  ∧ loader_style_display p = lit "none"
  ∧ resultsCard_style_display p = lit "block"
  ∧ effects = []
  ∧ requests
    = [ {| url := lit "http://127.0.0.1:8000/query/";
           method := lit "POST";
           headers := [(lit "Content-Type", lit "application/json")];
           body := JsonBody
                     (obj [(lit "session_id", VStr (lit "session_1730000000000"));
                           (lit "question", VStr (lit "Is knee surgery covered?"))]) |} ].
Proof. vm_compute. repeat split; reflexivity. Qed.


(** * Further properties of the handlers *)

Lemma handleQuery_begin_cases (p : Page) :
  (∃ message, handleQuery_begin p = Done p [Alert message])
  ∨ (∃ sid, sessionId p = Some sid ∧ sid ≠ []
            ∧ trim (questionInput_value p) ≠ []
            ∧ handleQuery_begin p =
              Await (set_resultsContent_innerHTML []
                       (set_loader_style_display (lit "block")
                          (set_resultsCard_style_display (lit "block") p)))
                []
                {| url := API_BASE_URL ++ lit "/query/";
                   method := lit "POST";
                   headers := [(lit "Content-Type", lit "application/json")];
                   body := JsonBody
                     (VObj (<[lit "question" := VStr (trim (questionInput_value p))]>
                              (<[lit "session_id" := VStr sid]> ∅))) |}).
Proof.
  destruct (trim (questionInput_value p)) as [|c t] eqn:Hq.
  { left. unfold handleQuery_begin. rewrite Hq. eauto. }
  destruct (sessionId p) as [[|c' sid]|] eqn:Hs.
  - left. unfold handleQuery_begin, sessionId_value. rewrite Hq, Hs. eauto.
  - right. exists (c' :: sid). split; [done|]. split; [done|]. split; [done|].
    rewrite <- Hq. apply handleQuery_begin_Await; [by rewrite Hq | done | done].
  - left. unfold handleQuery_begin, sessionId_value. rewrite Hq, Hs. eauto.
Qed.

Lemma handleUpload_begin_cases (now : Z) (p : Page) :
  (fileInput_files p = []
   ∧ handleUpload_begin now p =
     Done (set_uploadStatus_style_color (lit "red")
             (set_uploadStatus_textContent (lit "Please select a file first.") p)) [])
  ∨ (∃ file files,
       fileInput_files p = file :: files
       ∧ handleUpload_begin now p =
         Await (set_uploadStatus_style_color (lit "orange")
                  (set_uploadStatus_textContent (lit "Uploading and processing...")
                     (set_sessionId (Some (lit "session_" ++ dec now)) p)))
           []
           {| url := API_BASE_URL ++ lit "/upload_document/";
              method := lit "POST";
              headers := [];
              body := FormDataBody
                        [(lit "file", FileEntry file);
                         (lit "session_id", TextEntry (lit "session_" ++ dec now))] |}).
Proof.
  unfold handleUpload_begin. destruct (fileInput_files p) as [|file files].
  - by left.
  - right. by exists file, files.
Qed.

Section Settling.

Context (E : Engine).

(** What [handleQuery] writes when its call settles is decided by the
    outcome alone. *)
Lemma handleQuery_settle_writes o :
  ∃ html, ∀ p,
    handleQuery_settle E o p
    = set_loader_style_display (lit "none") (set_resultsContent_innerHTML html p).
Proof.
  unfold handleQuery_settle, handleQuery_try, displayResults.
  destruct (await_fetch o) as [response|]; cbn [bind]; [|by eexists].
  destruct (throw_unless_ok _ response); cbn [bind]; [|by eexists].
  destruct (await_json response) as [data|]; cbn [bind]; [|by eexists].
  destruct (displayResults_html E data); by eexists.
Qed.

(** What [handleUpload] writes when its call settles: the status of a
    success with the query card shown, or the status of a failure. *)
Lemma handleUpload_settle_writes o :
  (∃ text, ∀ p,
     handleUpload_settle E o p
     = (set_queryCard_style_display (lit "block")
          (set_uploadStatus_style_color (lit "green")
             (set_uploadStatus_textContent text p)),
        [Focus_questionInput]))
  ∨ (∃ error, ∀ p,
       handleUpload_try o p = Throw error
       ∧ handleUpload_settle E o p
         = (set_uploadStatus_style_color (lit "red")
              (set_uploadStatus_textContent (lit "Error: " ++ message_of E error) p),
            [])).
Proof.
  unfold handleUpload_settle, handleUpload_try.
  destruct (await_fetch o) as [response|e]; cbn [bind]; [|right; by exists e].
  destruct (throw_unless_ok _ response) as [|e]; cbn [bind]; [|right; by exists e].
  destruct (await_json response) as [data|e]; cbn [bind]; [|right; by exists e].
  destruct (get (Some data) (lit "message")) as [m|e]; cbn [bind]; [|right; by exists e].
  destruct (textContent_of m) as [text|e]; cbn [bind]; [|right; by exists e].
  left. by exists text.
Qed.

End Settling.


(** X1.  Of two query calls that settle one after the other, the later one
    decides the page: what the earlier one wrote is overwritten, whatever the
    two outcomes are; and what a settling call shows does not depend on the
    page it finds. *)
Theorem handleQuery_settle_last_wins (E : Engine) (o1 o2 : fetch_outcome) (p : Page) :
  handleQuery_settle E o2 (handleQuery_settle E o1 p) = handleQuery_settle E o2 p
  ∧ ∀ q, resultsContent_innerHTML (handleQuery_settle E o1 p)
         = resultsContent_innerHTML (handleQuery_settle E o1 q).
Proof.
  destruct (handleQuery_settle_writes E o1) as [h1 H1].
  destruct (handleQuery_settle_writes E o2) as [h2 H2].
  split.
  - by rewrite (H2 (handleQuery_settle E o1 p)), (H2 p), (H1 p).
  - intros q. by rewrite (H1 p), (H1 q).
Qed.

(** X2.  A whole run of the query handler, whatever the network answers,
    leaves the session identifier, the selected files, the question, the
    upload status and the query card as they were. *)
Theorem handleQuery_leaves_upload_state (E : Engine) (network : Request → fetch_outcome)
    (p : Page) :
  let p' := (handleQuery E network p).1.1 in
  sessionId p' = sessionId p
  ∧ fileInput_files p' = fileInput_files p
  ∧ questionInput_value p' = questionInput_value p
  ∧ uploadStatus_textContent p' = uploadStatus_textContent p
  ∧ uploadStatus_style_color p' = uploadStatus_style_color p
  ∧ queryCard_style_display p' = queryCard_style_display p.
Proof.
  unfold handleQuery.
  destruct (handleQuery_begin_cases p) as [[m ->] | (sid & _ & _ & _ & ->)]; [done|].
  cbn [fst].
  destruct (handleQuery_settle_writes E (network
    {| url := API_BASE_URL ++ lit "/query/";
       method := lit "POST";
       headers := [(lit "Content-Type", lit "application/json")];
       body := JsonBody
         (VObj (<[lit "question" := VStr (trim (questionInput_value p))]>
                  (<[lit "session_id" := VStr sid]> ∅))) |})) as [html ->].
  done.
Qed.

(** X3.  A whole run of the upload handler, whatever the network answers,
    leaves the selected files, the question, the results card, the loading
    indicator and the results area as they were. *)
Theorem handleUpload_leaves_query_state (E : Engine) (now : Z)
    (network : Request → fetch_outcome) (p : Page) :
  let p' := (handleUpload E now network p).1.1 in
  fileInput_files p' = fileInput_files p
  ∧ questionInput_value p' = questionInput_value p
  ∧ resultsCard_style_display p' = resultsCard_style_display p
  ∧ loader_style_display p' = loader_style_display p
  ∧ resultsContent_innerHTML p' = resultsContent_innerHTML p.
Proof.
  unfold handleUpload.
  destruct (handleUpload_begin_cases now p) as [[_ ->] | (file & files & _ & ->)];
    [done|].
  destruct (handleUpload_settle_writes E (network
    {| url := API_BASE_URL ++ lit "/upload_document/";
       method := lit "POST";
       headers := [];
       body := FormDataBody
                 [(lit "file", FileEntry file);
                  (lit "session_id", TextEntry (lit "session_" ++ dec now))] |}))
    as [[text H] | [error H]].
  - by rewrite H.
  - by rewrite (proj2 (H _)).
Qed.

(** X4.  When the upload call is rejected, or its response body cannot be
    read as JSON (whatever the status), the status text becomes "Error: "
    followed by the message of the rejection, in red; the query card is not
    shown by it, nothing is focused, and nothing else on the page changes. *)
Theorem handleUpload_settle_rejected (E : Engine) (o : fetch_outcome) (m : jsstring)
    (p : Page) :
  o = FetchRejects m ∨ (∃ r, o = FetchResolves r ∧ json r = JsonRejects m) →
  handleUpload_settle E o p
  = (set_uploadStatus_style_color (lit "red")
       (set_uploadStatus_textContent (lit "Error: " ++ m) p), []).
Proof.
  intros [-> | (r & -> & Hj)]; [done|].
  unfold handleUpload_settle, handleUpload_try, throw_unless_ok, await_json.
  cbn [await_fetch bind]. rewrite Hj. by destruct (ok r).
Qed.

Lemma handleUpload_settle_rejected_witness :
  handleUpload_settle V8.engine (FetchRejects (lit "Failed to fetch")) page_with_file
  = (set_uploadStatus_style_color (lit "red")
       (set_uploadStatus_textContent (lit "Error: Failed to fetch") page_with_file), [])
  ∧ handleUpload_settle V8.engine
      (FetchResolves {| status := 502; json := JsonRejects (lit "Unexpected token <") |})
      page_with_file
    = (set_uploadStatus_style_color (lit "red")
         (set_uploadStatus_textContent (lit "Error: Unexpected token <") page_with_file),
       []).
Proof.
  split.
  - apply (handleUpload_settle_rejected V8.engine _ (lit "Failed to fetch")). by left.
  - apply (handleUpload_settle_rejected V8.engine _ (lit "Unexpected token <")).
    right. by eexists.
Defined.

(** X5.  On an upload response with a non-success status: a [detail] that is
    present but falsy (null, false, 0, the empty string) gives the generic
    "Error: Upload failed"; a [detail] that is an object gives
    "Error: [object Object]" when it has no own [toString], and the text of
    the TypeError of converting it when it has one; and a body that is JSON
    null gives the text of the TypeError of reading [detail] of null. *)
Theorem handleUpload_settle_detail_edges (E : Engine) (r : Response) (p : Page) :
  ok r = false →
  (json r = JsonResolves VNull →
   uploadStatus_textContent (handleUpload_settle E (FetchResolves r) p).1
   = lit "Error: " ++ type_error_message E (ReadOfNullish Null (lit "detail")))
  ∧ (∀ o : gmap jsstring value,
       json r = JsonResolves (VObj o) → to_boolean (o !! lit "detail") = false →
       uploadStatus_textContent (handleUpload_settle E (FetchResolves r) p).1
       = lit "Error: Upload failed")
  ∧ (∀ o d : gmap jsstring value,
       json r = JsonResolves (VObj o) → o !! lit "detail" = Some (VObj d) →
       d !! lit "toString" = None →
       uploadStatus_textContent (handleUpload_settle E (FetchResolves r) p).1
       = lit "Error: [object Object]")
  ∧ (∀ (o d : gmap jsstring value) t,
       json r = JsonResolves (VObj o) → o !! lit "detail" = Some (VObj d) →
       d !! lit "toString" = Some t →
       uploadStatus_textContent (handleUpload_settle E (FetchResolves r) p).1
       = lit "Error: " ++ type_error_message E NoPrimitive).
Proof.
  intros Hok.
  unfold handleUpload_settle, handleUpload_try, await_fetch. cbn [bind].
  split; [|split; [|split]].
  - intros Hjson. by rewrite (throw_unless_ok_not_ok _ r _ Hok Hjson).
  - intros o Hjson Hd. rewrite (throw_unless_ok_not_ok _ r _ Hok Hjson).
    cbn [get bind]. unfold or_default. by rewrite Hd.
  - intros o d Hjson Hd Ht. rewrite (throw_unless_ok_not_ok _ r _ Hok Hjson).
    cbn [get bind]. rewrite Hd. unfold or_default.
    cbn [to_boolean to_string to_string_value]. rewrite Ht.
    rewrite bool_decide_eq_false_2; [done|]. by intros [? ?].
  - intros o d t Hjson Hd Ht. rewrite (throw_unless_ok_not_ok _ r _ Hok Hjson).
    cbn [get bind]. rewrite Hd. unfold or_default.
    cbn [to_boolean to_string to_string_value]. rewrite Ht.
    rewrite bool_decide_eq_true_2; [done|]. by eexists.
Qed.

Lemma handleUpload_settle_detail_edges_witness :
  uploadStatus_textContent
    (handleUpload_settle V8.engine
       (FetchResolves {| status := 422;
                         json := JsonResolves (obj [(lit "detail", obj [])]) |})
       page_with_file).1
  = lit "Error: [object Object]"
  ∧ uploadStatus_textContent
      (handleUpload_settle V8.engine
         (FetchResolves
            {| status := 422;
               json := JsonResolves
                         (obj [(lit "detail", obj [(lit "toString", VNum (lit "1"))])]) |})
         page_with_file).1
    = lit "Error: Cannot convert object to primitive value"
  ∧ uploadStatus_textContent
      (handleUpload_settle V8.engine
         (FetchResolves {| status := 500;
                           json := JsonResolves (obj [(lit "detail", VStr [])]) |})
         page_with_file).1
    = lit "Error: Upload failed"
  ∧ uploadStatus_textContent
      (handleUpload_settle V8.engine
         (FetchResolves {| status := 500; json := JsonResolves VNull |})
         page_with_file).1
    = lit "Error: Cannot read properties of null (reading 'detail')".
Proof.
  split; [|split; [|split]].
  - apply (proj1 (proj2 (proj2 (handleUpload_settle_detail_edges V8.engine
             {| status := 422; json := JsonResolves (obj [(lit "detail", obj [])]) |}
             page_with_file eq_refl)))
             (list_to_map [(lit "detail", obj [])]) (list_to_map []));
      reflexivity.
  - apply (proj2 (proj2 (proj2 (handleUpload_settle_detail_edges V8.engine
             {| status := 422;
                json := JsonResolves
                          (obj [(lit "detail", obj [(lit "toString", VNum (lit "1"))])]) |}
             page_with_file eq_refl)))
             (list_to_map [(lit "detail", obj [(lit "toString", VNum (lit "1"))])])
             (list_to_map [(lit "toString", VNum (lit "1"))]) (VNum (lit "1")));
      reflexivity.
  - apply (proj1 (proj2 (handleUpload_settle_detail_edges V8.engine
             {| status := 500; json := JsonResolves (obj [(lit "detail", VStr [])]) |}
             page_with_file eq_refl))
             (list_to_map [(lit "detail", VStr [])]));
      reflexivity.
  - apply (proj1 (handleUpload_settle_detail_edges V8.engine
             {| status := 500; json := JsonResolves VNull |}
             page_with_file eq_refl)).
    reflexivity.
Defined.

(** X6.  On a query response with a non-success status whose body is an
    object, the results area shows the error paragraph with the [detail] of
    the body when that is a non-empty string, and with "Query failed" when
    the [detail] is missing or falsy; the loading indicator is hidden. *)
Theorem handleQuery_settle_not_ok (E : Engine) (r : Response)
    (o : gmap jsstring value) (p : Page) :
  ok r = false →
  json r = JsonResolves (VObj o) →
  (∀ detail, o !! lit "detail" = Some (VStr detail) → detail ≠ [] →
     handleQuery_settle E (FetchResolves r) p
     = set_loader_style_display (lit "none")
         (set_resultsContent_innerHTML
            (lit "<p style=" ++ dq ++ lit "color:red;" ++ dq ++ lit ">Error: "
             ++ detail ++ lit "</p>") p))
  ∧ (to_boolean (o !! lit "detail") = false →
     handleQuery_settle E (FetchResolves r) p
     = set_loader_style_display (lit "none")
         (set_resultsContent_innerHTML
            (lit "<p style=" ++ dq ++ lit "color:red;" ++ dq
             ++ lit ">Error: Query failed</p>") p)).
Proof.
  intros Hok Hjson. unfold handleQuery_settle, handleQuery_try, await_fetch.
  cbn [bind]. rewrite (throw_unless_ok_not_ok _ r _ Hok Hjson). cbn [get bind].
  unfold or_default. split.
  - intros detail Hd Hne. rewrite Hd. cbn [to_boolean].
    by rewrite bool_decide_eq_false_2.
  - intros Hd. by rewrite Hd.
Qed.

Lemma handleQuery_settle_not_ok_witness :
  handleQuery_settle V8.engine
    (FetchResolves {| status := 404;
                      json := JsonResolves (obj [(lit "detail", VStr (lit "No session"))]) |})
    page_with_session
  = set_loader_style_display (lit "none")
      (set_resultsContent_innerHTML
         (lit "<p style=" ++ dq ++ lit "color:red;" ++ dq ++ lit ">Error: "
          ++ lit "No session" ++ lit "</p>") page_with_session)
  ∧ handleQuery_settle V8.engine (FetchResolves no_detail_response) page_with_session
    = set_loader_style_display (lit "none")
        (set_resultsContent_innerHTML
           (lit "<p style=" ++ dq ++ lit "color:red;" ++ dq
            ++ lit ">Error: Query failed</p>") page_with_session).
Proof.
  split.
  - apply (proj1 (handleQuery_settle_not_ok V8.engine
             {| status := 404;
                json := JsonResolves (obj [(lit "detail", VStr (lit "No session"))]) |}
             (list_to_map [(lit "detail", VStr (lit "No session"))])
             page_with_session eq_refl eq_refl)); [reflexivity | discriminate].
  - apply (proj2 (handleQuery_settle_not_ok V8.engine no_detail_response
             (list_to_map []) page_with_session eq_refl eq_refl)).
    reflexivity.
Defined.

(** X7.  On an upload response with a success status: a body object without
    [message], or with a null one, clears the status text, and a numeric
    [message] is shown as its text, in each case in green with the query card
    shown and the question focused; but a body that is JSON null takes the
    failure path, with the text of the TypeError in red and the query card
    left as it was. *)
Theorem handleUpload_settle_message_edges (E : Engine) (r : Response) (p : Page) :
  ok r = true →
  (∀ o : gmap jsstring value,
     json r = JsonResolves (VObj o) →
     o !! lit "message" = None ∨ o !! lit "message" = Some VNull →
     handleUpload_settle E (FetchResolves r) p
     = (set_queryCard_style_display (lit "block")
          (set_uploadStatus_style_color (lit "green")
             (set_uploadStatus_textContent [] p)),
        [Focus_questionInput]))
  ∧ (∀ (o : gmap jsstring value) n,
       json r = JsonResolves (VObj o) →
       o !! lit "message" = Some (VNum n) →
       handleUpload_settle E (FetchResolves r) p
       = (set_queryCard_style_display (lit "block")
            (set_uploadStatus_style_color (lit "green")
               (set_uploadStatus_textContent n p)),
          [Focus_questionInput]))
  ∧ (json r = JsonResolves VNull →
     handleUpload_settle E (FetchResolves r) p
     = (set_uploadStatus_style_color (lit "red")
          (set_uploadStatus_textContent
             (lit "Error: "
              ++ type_error_message E (ReadOfNullish Null (lit "message"))) p),
        [])).
Proof.
  intros Hok. unfold handleUpload_settle, handleUpload_try, await_fetch.
  cbn [bind]. rewrite (throw_unless_ok_ok _ r Hok). cbn [bind]. unfold await_json.
  split; [|split].
  - intros o -> [Hm | Hm]; cbn [get bind]; by rewrite Hm.
  - intros o n -> Hm. cbn [get bind]. by rewrite Hm.
  - by intros ->.
Qed.

Lemma handleUpload_settle_message_edges_witness :
  handleUpload_settle V8.engine
    (FetchResolves {| status := 200; json := JsonResolves (obj []) |}) page_with_file
  = (set_queryCard_style_display (lit "block")
       (set_uploadStatus_style_color (lit "green")
          (set_uploadStatus_textContent [] page_with_file)),
     [Focus_questionInput])
  ∧ handleUpload_settle V8.engine
      (FetchResolves {| status := 200; json := JsonResolves VNull |}) page_with_file
    = (set_uploadStatus_style_color (lit "red")
         (set_uploadStatus_textContent
            (lit "Error: Cannot read properties of null (reading 'message')")
            page_with_file),
       []).
Proof.
  split.
  - apply (proj1 (handleUpload_settle_message_edges V8.engine
             {| status := 200; json := JsonResolves (obj []) |} page_with_file eq_refl)
             (list_to_map [])); [reflexivity | by left].
  - apply (proj2 (proj2 (handleUpload_settle_message_edges V8.engine
             {| status := 200; json := JsonResolves VNull |} page_with_file eq_refl))).
    reflexivity.
Defined.

(** X8.  A whole run of the upload handler with files selected, on a network
    that answers the request with a success status and a string [message]:
    one request is sent, a POST to the upload address with the first of the
    selected files and the new session identifier; at the end the session
    identifier is set, the status shows the message in green, the query card
    is shown and the question input was focused. *)
Theorem handleUpload_run_success (E : Engine) (now : Z)
    (network : Request → fetch_outcome) (p : Page) (file : File) (files : list File)
    (r : Response) (o : gmap jsstring value) (message : jsstring) :
  fileInput_files p = file :: files →
  let request :=
    {| url := lit "http://127.0.0.1:8000/upload_document/";
       method := lit "POST";
       headers := [];
       body := FormDataBody
                 [(lit "file", FileEntry file);
                  (lit "session_id", TextEntry (lit "session_" ++ dec now))] |} in
  network request = FetchResolves r →
  ok r = true →
  json r = JsonResolves (VObj o) →
  o !! lit "message" = Some (VStr message) →
  handleUpload E now network p
  = (set_queryCard_style_display (lit "block")
       (set_uploadStatus_style_color (lit "green")
          (set_uploadStatus_textContent message
             (set_sessionId (Some (lit "session_" ++ dec now)) p))),
     [Focus_questionInput],
     [request]).
Proof.
  intros Hf request Hn Hok Hj Hm. unfold handleUpload.
  destruct (handleUpload_begin_cases now p) as [[H _] | (f & fs & H & ->)];
    [by rewrite Hf in H|].
  rewrite Hf in H. injection H as <- <-.
  change ({| url := API_BASE_URL ++ lit "/upload_document/"; method := lit "POST";
             headers := [];
             body := FormDataBody
                       [(lit "file", FileEntry file);
                        (lit "session_id", TextEntry (lit "session_" ++ dec now))] |})
    with request.
  rewrite Hn.
  unfold handleUpload_settle, handleUpload_try, await_fetch. cbn [bind].
  rewrite (throw_unless_ok_ok _ r Hok). unfold await_json. rewrite Hj.
  cbn [bind get]. rewrite Hm. cbn [bind textContent_of to_string to_string_value].
  done.
Qed.

Lemma handleUpload_run_success_witness :
  handleUpload V8.engine 1730000000000 service page_with_file
  = (set_queryCard_style_display (lit "block")
       (set_uploadStatus_style_color (lit "green")
          (set_uploadStatus_textContent (lit "Ready")
             (set_sessionId (Some (lit "session_" ++ dec 1730000000000))
                page_with_file))),
     [Focus_questionInput],
     [ {| url := lit "http://127.0.0.1:8000/upload_document/";
          method := lit "POST";
          headers := [];
          body := FormDataBody
                    [(lit "file", FileEntry policy_pdf);
                     (lit "session_id",
                      TextEntry (lit "session_" ++ dec 1730000000000))] |} ]).
Proof.
  apply (handleUpload_run_success V8.engine 1730000000000 service page_with_file
           policy_pdf [] ready_response
           (list_to_map [(lit "message", VStr (lit "Ready"))]) (lit "Ready"));
    reflexivity.
Defined.

(** X9.  A whole run of the query handler on a page with a session and a
    question that is not blank, on a network that answers the request with a
    success status and a response of the data model: one request is sent, a
    POST of the session identifier and the trimmed question as JSON; at the
    end the results card is shown, the results area holds the view of the
    response, the loading indicator is hidden, and nothing was alerted. *)
Theorem handleQuery_run_success (E : Engine) (network : Request → fetch_outcome)
    (p : Page) (sid : jsstring) (r : Response) (data : value)
    (response : QueryResponse) :
  sessionId p = Some sid → sid ≠ [] →
  trim (questionInput_value p) ≠ [] →
  let request :=
    {| url := lit "http://127.0.0.1:8000/query/";
       method := lit "POST";
       headers := [(lit "Content-Type", lit "application/json")];
       body := JsonBody
                 (VObj (<[lit "question" := VStr (trim (questionInput_value p))]>
                          (<[lit "session_id" := VStr sid]> ∅))) |} in
  network request = FetchResolves r →
  ok r = true →
  json r = JsonResolves data →
  decode data = Some response →
  handleQuery E network p
  = (set_loader_style_display (lit "none")
       (set_resultsContent_innerHTML (view response)
          (set_resultsCard_style_display (lit "block") p)),
     [],
     [request]).
Proof.
  intros Hs Hne Hq request Hn Hok Hj Hd. unfold handleQuery.
  rewrite (handleQuery_begin_Await p sid Hq Hs Hne).
  change ({| url := API_BASE_URL ++ lit "/query/"; method := lit "POST";
             headers := [(lit "Content-Type", lit "application/json")];
             body := JsonBody
                       (VObj (<[lit "question" := VStr (trim (questionInput_value p))]>
                                (<[lit "session_id" := VStr sid]> ∅))) |})
    with request.
  rewrite Hn. unfold handleQuery_settle, handleQuery_try, await_fetch. cbn [bind].
  rewrite (throw_unless_ok_ok _ r Hok). unfold await_json. rewrite Hj. cbn [bind].
  unfold displayResults. by rewrite (displayResults_html_decode E data response Hd).
Qed.

Lemma handleQuery_run_success_witness :
  handleQuery V8.engine service page_with_session
  = (set_loader_style_display (lit "none")
       (set_resultsContent_innerHTML (view two_clauses_response)
          (set_resultsCard_style_display (lit "block") page_with_session)),
     [],
     [ {| url := lit "http://127.0.0.1:8000/query/";
          method := lit "POST";
          headers := [(lit "Content-Type", lit "application/json")];
          body := JsonBody
                    (VObj (<[lit "question" := VStr (trim (lit "  Is knee surgery covered? "))]>
                             (<[lit "session_id" := VStr (lit "session_1730000000000")]>
                                ∅))) |} ]).
Proof.
  apply (handleQuery_run_success V8.engine service page_with_session
           (lit "session_1730000000000")
           {| status := 200; json := JsonResolves two_clauses |}
           two_clauses two_clauses_response);
    (reflexivity || discriminate).
Defined.


(** * Further properties of the renderer *)

Lemma displayResults_html_parts (E : Engine) (data : value) :
  displayResults_html E data =
    (let* html := html_before_clauses data in
     let* referenced_clauses := get (Some data) (lit "referenced_clauses") in
     append_clauses E referenced_clauses html).
Proof.
  unfold displayResults_html, html_before_clauses, append_clauses.
  destruct (decisionClass data); cbn [bind]; [|done].
  destruct (get (Some data) (lit "decision")) as [d|]; cbn [bind]; [|done].
  destruct (to_string d); cbn [bind]; [|done].
  destruct (get (Some data) (lit "justification")) as [j|]; cbn [bind]; [|done].
  destruct (to_string j); cbn [bind]; [|done].
  destruct (get (Some data) (lit "conditions")) as [c|]; cbn [bind]; [|done].
  destruct (to_boolean c); [|done].
  by destruct (to_string c).
Qed.

Lemma html_before_clauses_delete (o : gmap jsstring value) :
  html_before_clauses (VObj (delete (lit "referenced_clauses") o))
  = html_before_clauses (VObj o).
Proof.
  unfold html_before_clauses, decisionClass, decision_includes, get.
  by rewrite !lookup_delete_ne.
Qed.

(** X10.  When [decision] is missing from the response or is not a string,
    rendering throws a TypeError before anything is built; the query handler
    then shows the text of that error in the error paragraph and nothing of
    the response. *)
Theorem displayResults_without_decision (E : Engine) (data : value) :
  (∀ d, get (Some data) (lit "decision") ≠ Ok (Some (VStr d))) →
  ∃ e, displayResults_html E data = Throw (TypeError e)
       ∧ ∀ r p, ok r = true → json r = JsonResolves data →
           handleQuery_settle E (FetchResolves r) p
           = set_loader_style_display (lit "none")
               (set_resultsContent_innerHTML
                  (lit "<p style=" ++ dq ++ lit "color:red;" ++ dq ++ lit ">Error: "
                   ++ type_error_message E e ++ lit "</p>") p).
Proof.
  intros H.
  assert (∃ e, decisionClass data = Throw (TypeError e)) as [e He].
  { unfold decisionClass, or_else, decision_includes.
    destruct data as [| | | | |o]; try by eexists.
    cbn [get bind]. cbn [get] in H.
    destruct (o !! lit "decision") as [[| | |d| |]|]; try by eexists.
    by destruct (H d). }
  exists e. split.
  - unfold displayResults_html. by rewrite He.
  - intros r p Hok Hj. unfold handleQuery_settle, handleQuery_try, await_fetch.
    cbn [bind]. rewrite (throw_unless_ok_ok _ r Hok). unfold await_json. rewrite Hj.
    cbn [bind]. unfold displayResults, displayResults_html. by rewrite He.
Qed.

Lemma displayResults_without_decision_witness :
  ∃ e, displayResults_html V8.engine (obj [(lit "justification", VStr (lit "None."))])
       = Throw (TypeError e)
       ∧ type_error_message V8.engine e
         = lit "Cannot read properties of undefined (reading 'toLowerCase')".
Proof.
  destruct (displayResults_without_decision V8.engine
              (obj [(lit "justification", VStr (lit "None."))])) as (e & He & _).
  { intros d. discriminate. }
  exists e. split; [exact He|].
  assert (Throw (A := jsstring) (TypeError e)
          = Throw (TypeError (ReadOfNullish Undefined (lit "toLowerCase")))) as H.
  { rewrite <- He. reflexivity. }
  injection H as ->. reflexivity.
Defined.

Lemma append_clauses_not_array (E : Engine) (v : value) (html : jsstring) :
  (∀ l, v ≠ VArr l) →
  append_clauses E (Some v) html = Ok html
  ∨ ∃ e, append_clauses E (Some v) html = Throw e.
Proof.
  intros Hv. unfold append_clauses.
  destruct (and_then (Some v) _) as [[]|e]; cbn [bind]; [| by left | right; by exists e].
  right. destruct v; cbn [call_forEach]; try by eexists. by destruct (Hv elements).
Qed.

(** X11.  A [referenced_clauses] that is null, false, a number or the empty
    array renders exactly as a response without the field; one that is not
    an array never yields a section of clauses: the rendering is that of the
    response without the field, or it throws; and it throws when the field is
    a non-empty string. *)
Theorem referenced_clauses_not_a_list (E : Engine) (o : gmap jsstring value)
    (v : value) :
  o !! lit "referenced_clauses" = Some v →
  (v = VNull ∨ v = VBool false ∨ (∃ n, v = VNum n) ∨ v = VArr [] →
   displayResults_html E (VObj o)
   = displayResults_html E (VObj (delete (lit "referenced_clauses") o)))
  ∧ ((∀ l, v ≠ VArr l) →
     displayResults_html E (VObj o)
     = displayResults_html E (VObj (delete (lit "referenced_clauses") o))
     ∨ ∃ e, displayResults_html E (VObj o) = Throw e)
  ∧ (∀ c s, v = VStr (c :: s) → ∃ e, displayResults_html E (VObj o) = Throw e).
Proof.
  intros Hv. rewrite !displayResults_html_parts, html_before_clauses_delete.
  destruct (html_before_clauses (VObj o)) as [html|e]; cbn [bind];
    [|split; [done | split; [by left | intros; by exists e]]].
  cbn [get bind]. rewrite Hv, lookup_delete_eq.
  change (append_clauses E None html) with (Ok (A := jsstring) html).
  split; [|split].
  - intros [-> | [-> | [[n ->] | ->]]]; try done.
    unfold append_clauses, and_then. cbn [to_boolean get bind gt_zero].
    by destruct (negb (bool_decide (n = lit "0"))).
  - intros Hl. destruct (append_clauses_not_array E v html Hl) as [-> | H]; [by left | by right].
  - intros c s ->. unfold append_clauses, and_then. cbn [to_boolean].
    rewrite bool_decide_eq_false_2 by done. cbn [negb get].
    rewrite bool_decide_eq_true_2 by done. cbn [bind gt_zero].
    destruct (dec_length_positive (length (c :: s))) as [H0 Hm]; [done|].
    rewrite Hm, (bool_decide_eq_false_2 _ H0). cbn [negb andb call_forEach].
    by eexists.
Qed.

Lemma referenced_clauses_not_a_list_witness :
  displayResults_html V8.engine
    (obj [(lit "decision", VStr (lit "Covered"));
          (lit "justification", VStr (lit "Yes."));
          (lit "referenced_clauses", VArr [])])
  = displayResults_html V8.engine
      (obj [(lit "decision", VStr (lit "Covered"));
            (lit "justification", VStr (lit "Yes."))])
  ∧ ∃ e, displayResults_html V8.engine
           (obj [(lit "decision", VStr (lit "Covered"));
                 (lit "justification", VStr (lit "Yes."));
                 (lit "referenced_clauses", VStr (lit "4.2"))])
         = Throw e.
Proof.
  split.
  - destruct (referenced_clauses_not_a_list V8.engine
                (list_to_map [(lit "decision", VStr (lit "Covered"));
                              (lit "justification", VStr (lit "Yes."));
                              (lit "referenced_clauses", VArr [])])
                (VArr [])) as (H & _); [reflexivity|].
    apply H. by right; right; right.
  - destruct (referenced_clauses_not_a_list V8.engine
                (list_to_map [(lit "decision", VStr (lit "Covered"));
                              (lit "justification", VStr (lit "Yes."));
                              (lit "referenced_clauses", VStr (lit "4.2"))])
                (VStr (lit "4.2"))) as (_ & _ & H); [reflexivity|].
    apply (H 52 (lit ".2")). reflexivity.
Defined.

Lemma forEach_array_null (l : list value) (html : jsstring) :
  VNull ∈ l →
  ∃ e, forEach_array l
         (λ clause html, let* fragment := clause_html clause in Ok (html ++ fragment))
         html
       = Throw e.
Proof.
  intros H. revert html. induction l as [|x l IH]; intros html.
  - by apply elem_of_nil in H.
  - cbn [forEach_array]. apply elem_of_cons in H as [<- | H].
    + by eexists.
    + destruct (clause_html x) as [f|e]; cbn [bind]; [by apply IH | by exists e].
Qed.

(** X12.  One null among the referenced clauses makes the whole rendering
    throw: no markup is produced, not even for the clauses before it. *)
Theorem null_clause_fails_rendering (E : Engine) (o : gmap jsstring value)
    (l : list value) :
  o !! lit "referenced_clauses" = Some (VArr l) →
  VNull ∈ l →
  ∃ e, displayResults_html E (VObj o) = Throw e
       ∧ ∀ p, displayResults E (VObj o) p = Throw e.
Proof.
  intros Hl Hn.
  assert (∃ e, displayResults_html E (VObj o) = Throw e) as [e He].
  { rewrite displayResults_html_parts.
    destruct (html_before_clauses (VObj o)) as [html|e]; cbn [bind]; [|by exists e].
    cbn [get bind]. rewrite Hl. unfold append_clauses, and_then. cbn [to_boolean].
    rewrite array_length_gt_zero. cbn [bind].
    destruct l as [|x l]; [by apply elem_of_nil in Hn|].
    rewrite bool_decide_eq_false_2 by done. cbn [negb call_forEach].
    by apply forEach_array_null. }
  exists e. split; [done|]. intros p. unfold displayResults. by rewrite He.
Qed.

Lemma null_clause_fails_rendering_witness :
  ∃ e, displayResults_html V8.engine
         (obj [(lit "decision", VStr (lit "Covered"));
               (lit "justification", VStr (lit "Yes."));
               (lit "referenced_clauses", VArr [clause_zero; VNull])])
       = Throw e.
Proof.
  destruct (null_clause_fails_rendering V8.engine
              (list_to_map [(lit "decision", VStr (lit "Covered"));
                            (lit "justification", VStr (lit "Yes."));
                            (lit "referenced_clauses", VArr [clause_zero; VNull])])
              [clause_zero; VNull]) as (e & He & _).
  { reflexivity. }
  { by right; left. }
  by exists e.
Defined.

Lemma clause_html_string (s : jsstring) :
  clause_html (VStr s)
  = Ok (indent 20 ++ lit "<div class=" ++ dq ++ lit "referenced-clause" ++ dq
        ++ lit ">"
        ++ indent 24 ++ lit "<strong>Clause N/A (from undefined)</strong>"
        ++ indent 24 ++ lit "<p>" ++ dq ++ lit "undefined" ++ dq ++ lit "</p>"
        ++ indent 20 ++ lit "</div>"
        ++ indent 16).
Proof. reflexivity. Qed.

Lemma forEach_array_strings (l : list value) (html : jsstring) :
  Forall (λ clause, ∃ s, clause = VStr s) l →
  forEach_array l
    (λ clause html, let* fragment := clause_html clause in Ok (html ++ fragment)) html
  = Ok (html
        ++ concat (replicate (length l)
             (indent 20 ++ lit "<div class=" ++ dq ++ lit "referenced-clause" ++ dq
              ++ lit ">"
              ++ indent 24 ++ lit "<strong>Clause N/A (from undefined)</strong>"
              ++ indent 24 ++ lit "<p>" ++ dq ++ lit "undefined" ++ dq ++ lit "</p>"
              ++ indent 20 ++ lit "</div>"
              ++ indent 16))).
Proof.
  intros H. revert html. induction H as [|x l [s ->] _ IH]; intros html.
  - cbn. by rewrite app_nil_r.
  - cbn [forEach_array length replicate concat].
    rewrite clause_html_string. cbn [bind]. rewrite IH.
    by rewrite <- !app_assoc.
Qed.

(** X13.  When the clauses of a response are strings instead of objects,
    each of them is rendered, in a section of as many blocks as there are
    clauses, with the placeholder as its number and the word "undefined" as
    its document name and as its quoted text: the strings themselves are
    not shown. *)
Theorem clauses_as_strings (E : Engine) (o : gmap jsstring value)
    (d j : jsstring) (l : list value) :
  o !! lit "decision" = Some (VStr d) →
  o !! lit "justification" = Some (VStr j) →
  o !! lit "conditions" = None →
  o !! lit "referenced_clauses" = Some (VArr l) →
  l ≠ [] →
  Forall (λ clause, ∃ s, clause = VStr s) l →
  displayResults_html E (VObj o)
  = Ok (indent 12 ++ lit "<div class=" ++ dq ++ lit "decision " ++ class_of_decision d
        ++ dq ++ lit ">" ++ d ++ lit "</div>"
        ++ indent 12 ++ lit "<h3>Justification</h3>"
        ++ indent 12 ++ lit "<p>" ++ j ++ lit "</p>"
        ++ indent 8
        ++ lit "<h3>Referenced Clauses</h3>"
        ++ concat (replicate (length l)
             (indent 20 ++ lit "<div class=" ++ dq ++ lit "referenced-clause" ++ dq
              ++ lit ">"
              ++ indent 24 ++ lit "<strong>Clause N/A (from undefined)</strong>"
              ++ indent 24 ++ lit "<p>" ++ dq ++ lit "undefined" ++ dq ++ lit "</p>"
              ++ indent 20 ++ lit "</div>"
              ++ indent 16))).
Proof.
  intros Hd Hj Hc Hl Hne Hs. unfold displayResults_html.
  rewrite (decisionClass_string o d Hd). unfold get at 1 2 3 4.
  rewrite Hd, Hj, Hc, Hl. cbn [bind to_string to_string_value to_boolean].
  unfold and_then. cbn [to_boolean]. rewrite array_length_gt_zero. cbn [bind].
  rewrite bool_decide_eq_false_2 by done. cbn [negb call_forEach].
  rewrite (forEach_array_strings l _ Hs). by rewrite <- !app_assoc.
Qed.

Lemma clauses_as_strings_witness :
  ∃ html,
    displayResults_html V8.engine
      (obj [(lit "decision", VStr (lit "Covered"));
            (lit "justification", VStr (lit "Yes."));
            (lit "referenced_clauses",
             VArr [VStr (lit "Clause 4.2"); VStr (lit "Clause 7")])])
    = Ok html
    ∧ includes html (lit "Clause 4.2") = false
    ∧ includes html (lit "<strong>Clause N/A (from undefined)</strong>") = true.
Proof.
  eexists. split.
  - apply (clauses_as_strings V8.engine
             (list_to_map [(lit "decision", VStr (lit "Covered"));
                           (lit "justification", VStr (lit "Yes."));
                           (lit "referenced_clauses",
                            VArr [VStr (lit "Clause 4.2"); VStr (lit "Clause 7")])])
             (lit "Covered") (lit "Yes.")
             [VStr (lit "Clause 4.2"); VStr (lit "Clause 7")]);
      try reflexivity; [discriminate | by repeat constructor; eexists].
  - split; reflexivity.
Defined.


(** * White space around the question *)

Lemma trimStart_app_white l s :
  Forall (λ c, is_white_space c = true) l → trimStart (l ++ s) = trimStart s.
Proof. induction 1 as [|c l Hc _ IH]; simpl; [done|]. by rewrite Hc. Qed.

Lemma trimStart_app_nonempty s r :
  trimStart s ≠ [] → trimStart (s ++ r) = trimStart s ++ r.
Proof.
  induction s as [|c s IH]; simpl; [done|].
  destruct (is_white_space c); [done|]. done.
Qed.

Lemma trimEnd_app_white s r :
  Forall (λ c, is_white_space c = true) r → trimEnd (s ++ r) = trimEnd s.
Proof.
  intros H. unfold trimEnd. rewrite rev_app_distr.
  rewrite trimStart_app_white; [done|]. by apply Forall_rev.
Qed.

Lemma trim_padding l s r :
  Forall (λ c, is_white_space c = true) l →
  Forall (λ c, is_white_space c = true) r →
  trim (l ++ s ++ r) = trim s.
Proof.
  intros Hl Hr. unfold trim. rewrite trimStart_app_white by done.
  destruct (trimStart s) as [|c t] eqn:Hs.
  - destruct (trimStart_decompose s) as (l' & Hd & Hl').
    rewrite Hs, app_nil_r in Hd. subst l'.
    rewrite trimStart_white; [done|]. by apply Forall_app.
  - rewrite trimStart_app_nonempty by by rewrite Hs.
    rewrite Hs. by apply trimEnd_app_white.
Qed.

(** X14.  White space typed before and after the question makes no
    difference to a query: the same alerts are raised, the same request is
    sent, and the results card, the loading indicator and the results area
    end up the same. *)
Theorem handleQuery_ignores_padding (E : Engine) (network : Request → fetch_outcome)
    (p : Page) (l question r : jsstring) :
  Forall (λ c, is_white_space c = true) l →
  Forall (λ c, is_white_space c = true) r →
  let a := handleQuery E network (set_questionInput_value (l ++ question ++ r) p) in
  let b := handleQuery E network (set_questionInput_value question p) in
  a.2 = b.2
  ∧ a.1.2 = b.1.2
  ∧ resultsCard_style_display a.1.1 = resultsCard_style_display b.1.1
  ∧ loader_style_display a.1.1 = loader_style_display b.1.1
  ∧ resultsContent_innerHTML a.1.1 = resultsContent_innerHTML b.1.1.
Proof.
  intros Hl Hr a b. subst a b. unfold handleQuery, handleQuery_begin.
  cbn [questionInput_value set_questionInput_value].
  rewrite (trim_padding l question r Hl Hr).
  destruct (negb (to_boolean (Some (VStr (trim question))))); [done|].
  change (sessionId_value (set_questionInput_value (l ++ question ++ r) p))
    with (sessionId_value p).
  change (sessionId_value (set_questionInput_value question p))
    with (sessionId_value p).
  destruct (negb (to_boolean (Some (sessionId_value p)))); [done|].
  cbv zeta.
  match goal with
  | |- context [handleQuery_settle E (network ?req) _] =>
      destruct (handleQuery_settle_writes E (network req)) as [html H]
  end.
  cbn [fst snd]. cbn [sessionId_value sessionId set_resultsContent_innerHTML
    set_loader_style_display set_resultsCard_style_display set_questionInput_value].
  by rewrite !H.
Qed.

Lemma handleQuery_ignores_padding_witness :
  (handleQuery V8.engine service page_with_session).2
  = (handleQuery V8.engine service
       (set_questionInput_value (lit "Is knee surgery covered?") page_with_session)).2.
Proof.
  apply (handleQuery_ignores_padding V8.engine service page_with_session
           (lit "  ") (lit "Is knee surgery covered?") (lit " "));
    by repeat constructor.
Defined.


(** * Properties of the event loop *)

Lemma run_snoc (E : Engine) (events : list event) (e : event) (w : World) :
  run E (events ++ [e]) w = step E e (run E events w).
Proof. unfold run. by rewrite fold_left_app. Qed.

Lemma run_app (E : Engine) (events1 events2 : list event) (w : World) :
  run E (events1 ++ events2) w = run E events2 (run E events1 w).
Proof. unfold run. by rewrite fold_left_app. Qed.

Section Steps.

Context (E : Engine).

(** Only a click on the upload button writes the session identifier. *)
Lemma step_sessionId (e : event) (w : World) :
  is_ClickUpload e = false →
  sessionId (page (step E e w)) = sessionId (page w).
Proof.
  destruct e as [files|text|now| |i o]; try done; intros _; cbn [step].
  - destruct (handleQuery_begin_cases (page w)) as [[m ->] | (sid & _ & _ & _ & ->)];
      done.
  - destruct (pending w !! i) as [[]|]; [| |done].
    + pose proof (proj1 (handleUpload_settle_keeps E o (page w))) as H.
      by destruct (handleUpload_settle E o (page w)).
    + destruct (handleQuery_settle_writes E o) as [html ->]. done.
Qed.

(** Only a click sends a request, and a click sends at most one. *)
Lemma step_sent (e : event) (w : World) :
  sent (step E e w) = sent w
  ∨ (is_click e = true ∧ ∃ request, sent (step E e w) = sent w ++ [request]).
Proof.
  destruct e as [files|text|now| |i o]; cbn [step]; try by left.
  - destruct (handleUpload_begin now (page w)); cbn; [by left | right; eauto].
  - destruct (handleQuery_begin (page w)); cbn; [by left | right; eauto].
  - destruct (pending w !! i) as [[]|]; [| by left | by left].
    destruct (handleUpload_settle E o (page w)). by left.
Qed.

(** No event hides a card: after an event a card is displayed as before, or
    its display is "block". *)
Lemma step_cards (e : event) (w : World) :
  (queryCard_style_display (page (step E e w)) = queryCard_style_display (page w)
   ∨ queryCard_style_display (page (step E e w)) = lit "block")
  ∧ (resultsCard_style_display (page (step E e w)) = resultsCard_style_display (page w)
     ∨ resultsCard_style_display (page (step E e w)) = lit "block").
Proof.
  destruct e as [files|text|now| |i o]; cbn [step]; try by split; left.
  - destruct (handleUpload_begin_cases now (page w))
      as [[_ ->] | (file & files & _ & ->)]; by split; left.
  - destruct (handleQuery_begin_cases (page w)) as [[m ->] | (sid & _ & _ & _ & ->)].
    + by split; left.
    + split; [by left | by right].
  - destruct (pending w !! i) as [[]|]; [| | by split; left].
    + destruct (handleUpload_settle_writes E o) as [[text H] | [error H]].
      * rewrite H. split; [by right | by left].
      * rewrite (proj2 (H _)). by split; left.
    + destruct (handleQuery_settle_writes E o) as [html ->]. by split; left.
Qed.

End Steps.

Lemma sessions_uploaded_step (E : Engine) (e : event) (w : World) :
  sessions_uploaded w → sessions_uploaded (step E e w).
Proof.
  intros [Hpage Hsent].
  assert (sent (step E e w) = sent w →
          sessionId (page (step E e w)) = sessionId (page w) →
          sessions_uploaded (step E e w)) as Hsame.
  { intros Hs Hp. split.
    - intros sid. rewrite Hp, Hs. apply Hpage.
    - intros j q. rewrite Hs. apply Hsent. }
  assert (∀ request j q,
            (sent w ++ [request]) !! j = Some q →
            (∃ sid, upload_session request = Some sid)
            ∨ (∃ sid i u, query_session request = Some sid
                          ∧ sent w !! i = Some u ∧ upload_session u = Some sid) →
            (∃ sid, upload_session q = Some sid)
            ∨ (∃ sid i u, query_session q = Some sid ∧ (i < j)%nat
                          ∧ (sent w ++ [request]) !! i = Some u
                          ∧ upload_session u = Some sid)) as Hsnoc.
  { intros request j q Hj Hr. apply lookup_app_Some in Hj as [Hj | [Hlen Hj]].
    - destruct (Hsent j q Hj) as [H | (sid & i & u & Hq & Hi & Hu & Hs)]; [by left|].
      right. exists sid, i, u. repeat split; try done.
      by rewrite lookup_app_l by by eapply lookup_lt_Some.
    - apply list_lookup_singleton_Some in Hj as [Hj <-].
      destruct Hr as [H | (sid & i & u & Hq & Hu & Hs)]; [by left|].
      right. exists sid, i, u. repeat split; try done.
      + apply lookup_lt_Some in Hu. lia.
      + by rewrite lookup_app_l by by eapply lookup_lt_Some. }
  destruct e as [files|text|now| |i o].
  - by apply Hsame.
  - by apply Hsame.
  - cbn [step].
    destruct (handleUpload_begin_cases now (page w))
      as [[_ H] | (file & files & _ & H)]; rewrite H.
    { split; [apply Hpage | apply Hsent]. }
    cbn [after_begin]. split; cbn [page sent].
    + intros sid [= <-]. exists (length (sent w)). eexists. split.
      * by rewrite lookup_app_r, Nat.sub_diag.
      * reflexivity.
    + intros j q Hj. apply (Hsnoc _ j q Hj). left. by eexists.
  - cbn [step].
    destruct (handleQuery_begin_cases (page w))
      as [[m H] | (sid & Hs & _ & _ & H)]; rewrite H.
    { split; [apply Hpage | apply Hsent]. }
    cbn [after_begin]. split; cbn [page sent].
    + intros sid' Hsid. destruct (Hpage sid' Hsid) as (i & u & Hi & Hu).
      exists i, u. split; [|done].
      by rewrite lookup_app_l by by eapply lookup_lt_Some.
    + intros j q Hj. apply (Hsnoc _ j q Hj). right.
      destruct (Hpage sid Hs) as (i & u & Hi & Hu).
      exists sid, i, u. split; [|done].
      unfold query_session. cbn [body].
      rewrite lookup_insert_ne by done. by rewrite lookup_insert_eq.
  - apply Hsame.
    + by destruct (step_sent E (Settle i o) w) as [H | [? _]].
    + by apply step_sessionId.
Qed.

(** X15.  From the loading of the page on, whatever the user does and
    however the calls settle, every request that is sent is an upload
    request with a session identifier, or a query request whose session
    identifier is the one that an upload request sent before it carried; so
    the first request sent is an upload: no query is sent before an upload
    was started, and none without an identifier or with one of its own. *)
Theorem query_requests_follow_uploads (E : Engine) (events : list event) (p : Page) :
  (∀ j q, sent (run E events (loaded p)) !! j = Some q →
     (∃ sid, upload_session q = Some sid)
     ∨ (∃ sid i u, query_session q = Some sid ∧ (i < j)%nat
                   ∧ sent (run E events (loaded p)) !! i = Some u
                   ∧ upload_session u = Some sid))
  ∧ (∀ q, sent (run E events (loaded p)) !! 0%nat = Some q →
       ∃ sid, upload_session q = Some sid).
Proof.
  assert (sessions_uploaded (run E events (loaded p))) as [_ H].
  { induction events as [|e events IH] using rev_ind.
    - split; [intros sid' [=] | intros j' q' [=]].
    - rewrite run_snoc. by apply sessions_uploaded_step. }
  split; [exact H|].
  intros q Hq. destruct (H 0%nat q Hq) as [? | (sid & i & u & _ & Hi & _)]; [done | lia].
Qed.

Lemma query_requests_follow_uploads_witness :
  ∃ q, sent (run V8.engine
               [ClickQuery; SelectFiles [policy_pdf]; ClickUpload 1730000000000;
                TypeQuestion (lit "Is knee surgery covered?"); ClickQuery]
               (loaded fresh_page)) !! 1%nat = Some q
       ∧ query_session q = Some (lit "session_1730000000000")
       ∧ ((∃ sid, upload_session q = Some sid)
          ∨ (∃ sid i u, query_session q = Some sid ∧ (i < 1)%nat
               ∧ sent (run V8.engine
                         [ClickQuery; SelectFiles [policy_pdf];
                          ClickUpload 1730000000000;
                          TypeQuestion (lit "Is knee surgery covered?"); ClickQuery]
                         (loaded fresh_page)) !! i = Some u
               ∧ upload_session u = Some sid)).
Proof.
  eexists. split; [reflexivity|]. split; [reflexivity|].
  apply (proj1 (query_requests_follow_uploads V8.engine
                  [ClickQuery; SelectFiles [policy_pdf]; ClickUpload 1730000000000;
                   TypeQuestion (lit "Is knee surgery covered?"); ClickQuery]
                  fresh_page) 1%nat).
  reflexivity.
Defined.

(** X16.  No event hides a card again: once the query card is displayed it
    stays displayed, also when a later upload fails, and likewise the
    results card; and at any time each card is displayed as in the markup or
    with "block". *)
Theorem cards_stay_displayed (E : Engine) (events : list event) (w : World) :
  (queryCard_style_display (page w) = lit "block" →
   queryCard_style_display (page (run E events w)) = lit "block")
  ∧ (resultsCard_style_display (page w) = lit "block" →
     resultsCard_style_display (page (run E events w)) = lit "block")
  ∧ (queryCard_style_display (page (run E events w)) = queryCard_style_display (page w)
     ∨ queryCard_style_display (page (run E events w)) = lit "block")
  ∧ (resultsCard_style_display (page (run E events w))
     = resultsCard_style_display (page w)
     ∨ resultsCard_style_display (page (run E events w)) = lit "block").
Proof.
  induction events as [|e events IH] using rev_ind.
  - by repeat split; try left.
  - rewrite run_snoc. destruct IH as (Hq & Hr & Hq' & Hr').
    destruct (step_cards E e (run E events w)) as [Sq Sr].
    split; [|split; [|split]].
    + intros H. destruct Sq as [-> | ->]; auto.
    + intros H. destruct Sr as [-> | ->]; auto.
    + destruct Sq as [-> | ->]; auto.
    + destruct Sr as [-> | ->]; auto.
Qed.

Lemma cards_stay_displayed_witness :
  queryCard_style_display (page_with_session) = lit "block"
  ∧ queryCard_style_display
      (page (run V8.engine
               [ClickUpload 1730000000001; Settle 0 (FetchRejects (lit "Failed to fetch"))]
               {| page := page_with_session; pending := []; sent := []; shown := [] |}))
    = lit "block".
Proof.
  split; [reflexivity|].
  apply (cards_stay_displayed V8.engine). reflexivity.
Defined.

(** X17.  The session identifier on the page is that of the last upload
    started: after a click on the upload button with files selected, no
    typing, selecting, query or settling of any call, that upload or an
    earlier one, changes it. *)
Theorem sessionId_of_last_upload (E : Engine) (events1 events2 : list event) (now : Z)
    (w : World) :
  fileInput_files (page (run E events1 w)) ≠ [] →
  Forall (λ e, is_ClickUpload e = false) events2 →
  sessionId (page (run E (events1 ++ ClickUpload now :: events2) w))
  = Some (lit "session_" ++ dec now).
Proof.
  intros Hf H2. rewrite run_app.
  change (run E (ClickUpload now :: events2) (run E events1 w))
    with (run E events2 (step E (ClickUpload now) (run E events1 w))).
  induction events2 as [|e events2 IH] using rev_ind.
  - cbn [run fold_left step].
    destruct (handleUpload_begin_cases now (page (run E events1 w)))
      as [[H _] | (file & files & _ & ->)]; done.
  - apply Forall_app in H2 as [H2 He]. apply Forall_cons in He as [He _].
    rewrite run_snoc, step_sessionId by done. by apply IH.
Qed.

Lemma sessionId_of_last_upload_witness :
  sessionId
    (page (run V8.engine
             ([SelectFiles [policy_pdf]; ClickUpload 1730000000000]
              ++ ClickUpload 1730000000005
              :: [Settle 1 (FetchRejects (lit "Failed to fetch"));
                  Settle 0 (FetchResolves ready_response)])
             (loaded fresh_page)))
  = Some (lit "session_" ++ dec 1730000000005).
Proof.
  apply (sessionId_of_last_upload V8.engine
           [SelectFiles [policy_pdf]; ClickUpload 1730000000000]
           [Settle 1 (FetchRejects (lit "Failed to fetch"));
            Settle 0 (FetchResolves ready_response)]);
    [discriminate | by repeat constructor].
Defined.

(** * Calls that overlap *)

Section Overlap.

Context (E : Engine).

Lemma step_ClickQuery_sends (w : World) (sid : jsstring) :
  sessionId (page w) = Some sid → sid ≠ [] →
  trim (questionInput_value (page w)) ≠ [] →
  ∃ request,
    step E ClickQuery w
    = {| page := set_resultsContent_innerHTML []
                   (set_loader_style_display (lit "block")
                      (set_resultsCard_style_display (lit "block") (page w)));
         pending := pending w ++ [QueryCall];
         sent := sent w ++ [request];
         shown := shown w ++ [] |}.
Proof.
  intros Hs Hne Hq. cbn [step].
  rewrite (handleQuery_begin_Await (page w) sid Hq Hs Hne). by eexists.
Qed.

Lemma step_ClickUpload_sends (w : World) (now : Z) :
  fileInput_files (page w) ≠ [] →
  ∃ request,
    step E (ClickUpload now) w
    = {| page := set_uploadStatus_style_color (lit "orange")
                   (set_uploadStatus_textContent (lit "Uploading and processing...")
                      (set_sessionId (Some (lit "session_" ++ dec now)) (page w)));
         pending := pending w ++ [UploadCall];
         sent := sent w ++ [request];
         shown := shown w ++ [] |}.
Proof.
  intros Hf. cbn [step].
  destruct (handleUpload_begin_cases now (page w)) as [[H _] | (file & files & _ & ->)];
    [done|]. by eexists.
Qed.

Lemma step_Settle_query (w : World) (i : nat) (o : fetch_outcome) :
  pending w !! i = Some QueryCall →
  step E (Settle i o) w
  = {| page := handleQuery_settle E o (page w); pending := delete i (pending w);
       sent := sent w; shown := shown w |}.
Proof. intros H. cbn [step]. by rewrite H. Qed.

Lemma step_Settle_upload (w : World) (i : nat) (o : fetch_outcome) :
  pending w !! i = Some UploadCall →
  step E (Settle i o) w
  = {| page := (handleUpload_settle E o (page w)).1; pending := delete i (pending w);
       sent := sent w; shown := shown w ++ (handleUpload_settle E o (page w)).2 |}.
Proof.
  intros H. cbn [step]. rewrite H. by destruct (handleUpload_settle E o (page w)).
Qed.

End Overlap.

(** X19.  Two queries started one after the other, before either call has
    settled, are both sent.  The results area ends up showing the outcome of
    the call that settles last, which need not be the query asked last; and
    as soon as one of the two has settled the loading indicator is hidden,
    while the other call is still awaited. *)
Theorem overlapping_queries (E : Engine) (w : World) (sid : jsstring)
    (o1 o2 : fetch_outcome) :
  pending w = [] →
  sessionId (page w) = Some sid → sid ≠ [] →
  trim (questionInput_value (page w)) ≠ [] →
  let in_order := run E [ClickQuery; ClickQuery; Settle 0 o1; Settle 0 o2] w in
  let reversed := run E [ClickQuery; ClickQuery; Settle 1 o2; Settle 0 o1] w in
  let one_settled := run E [ClickQuery; ClickQuery; Settle 0 o1] w in
  resultsContent_innerHTML (page in_order)
  = resultsContent_innerHTML (handleQuery_settle E o2 (page w))
  ∧ resultsContent_innerHTML (page reversed)
    = resultsContent_innerHTML (handleQuery_settle E o1 (page w))
  ∧ loader_style_display (page one_settled) = lit "none"
  ∧ pending one_settled = [QueryCall]
  ∧ length (sent in_order) = S (S (length (sent w)))
  ∧ length (sent reversed) = S (S (length (sent w))).
Proof.
  intros Hp Hs Hne Hq in_order reversed one_settled.
  subst in_order reversed one_settled. unfold run. cbn [fold_left].
  destruct (step_ClickQuery_sends E w sid Hs Hne Hq) as [r1 ->].
  match goal with
  | |- context [step E ClickQuery ?w1] =>
      destruct (step_ClickQuery_sends E w1 sid Hs Hne Hq) as [r2 ->]
  end.
  cbn [page pending sent shown]. rewrite Hp. cbn [app].
  repeat (rewrite step_Settle_query by done;
          cbn [page pending sent delete list_delete]).
  destruct (handleQuery_settle_writes E o1) as [h1 H1].
  destruct (handleQuery_settle_writes E o2) as [h2 H2].
  rewrite !H1, !H2, !length_app. cbn. repeat split; try done; lia.
Qed.

Lemma overlapping_queries_witness :
  resultsContent_innerHTML
    (page (run V8.engine
             [ClickQuery; ClickQuery; Settle 1 (FetchRejects (lit "Failed to fetch"));
              Settle 0 (FetchResolves
                          {| status := 200; json := JsonResolves two_clauses |})]
             {| page := page_with_session; pending := []; sent := []; shown := [] |}))
  = resultsContent_innerHTML
      (handleQuery_settle V8.engine
         (FetchResolves {| status := 200; json := JsonResolves two_clauses |})
         page_with_session).
Proof.
  apply (overlapping_queries V8.engine
           {| page := page_with_session; pending := []; sent := []; shown := [] |}
           (lit "session_1730000000000")
           (FetchResolves {| status := 200; json := JsonResolves two_clauses |})
           (FetchRejects (lit "Failed to fetch")));
    (reflexivity || discriminate).
Defined.

(** X20.  Two uploads started one after the other, before either call has
    settled: when the later one fails and the earlier one then succeeds, the
    page shows the message of the success in green with the query card
    displayed, while the session identifier is that of the later upload, the
    one that failed; a query then carries that identifier. *)
Theorem overlapping_uploads (E : Engine) (w : World) (now1 now2 : Z)
    (failure : jsstring) (r : Response) (o : gmap jsstring value)
    (message : jsstring) :
  pending w = [] →
  fileInput_files (page w) ≠ [] →
  ok r = true →
  json r = JsonResolves (VObj o) →
  o !! lit "message" = Some (VStr message) →
  let w' := run E [ClickUpload now1; ClickUpload now2;
                   Settle 1 (FetchRejects failure); Settle 0 (FetchResolves r)] w in
  sessionId (page w') = Some (lit "session_" ++ dec now2)
  ∧ uploadStatus_textContent (page w') = message
  ∧ uploadStatus_style_color (page w') = lit "green"
  ∧ queryCard_style_display (page w') = lit "block"
  ∧ pending w' = []
  ∧ ∀ question, trim question ≠ [] →
      ∃ q, sent (step E ClickQuery (step E (TypeQuestion question) w'))
           = sent w' ++ [q]
           ∧ query_session q = Some (lit "session_" ++ dec now2).
Proof.
  intros Hp Hf Hok Hj Hm w'. subst w'. unfold run. cbn [fold_left].
  destruct (step_ClickUpload_sends E w now1 Hf) as [r1 ->].
  match goal with
  | |- context [step E (ClickUpload now2) ?w1] =>
      destruct (step_ClickUpload_sends E w1 now2 Hf) as [r2 ->]
  end.
  cbn [page pending sent shown]. rewrite Hp. cbn [app].
  repeat (rewrite step_Settle_upload by done;
          cbn [page pending sent shown delete list_delete]).
  match goal with
  | |- context [handleUpload_settle E (FetchRejects failure) ?p1] =>
      change (handleUpload_settle E (FetchRejects failure) p1)
        with (set_uploadStatus_style_color (lit "red")
                (set_uploadStatus_textContent (lit "Error: " ++ failure) p1),
              @nil effect)
  end.
  cbn [fst snd].
  match goal with
  | |- context [handleUpload_settle E (FetchResolves r) ?p2] =>
      assert (handleUpload_settle E (FetchResolves r) p2
              = (set_queryCard_style_display (lit "block")
                   (set_uploadStatus_style_color (lit "green")
                      (set_uploadStatus_textContent message p2)),
                 [Focus_questionInput])) as ->
  end.
  { unfold handleUpload_settle, handleUpload_try, await_fetch. cbn [bind].
    rewrite (throw_unless_ok_ok _ r Hok). unfold await_json. rewrite Hj.
    cbn [bind get]. by rewrite Hm. }
  cbn [fst snd]. repeat split; try done.
  intros question Hq. cbn [step page].
  match goal with
  | |- context [handleQuery_begin ?p3] =>
      rewrite (handleQuery_begin_Await p3 (lit "session_" ++ dec now2) Hq eq_refl)
        by discriminate
  end.
  cbn [after_begin sent]. eexists. split; [reflexivity|].
  unfold query_session. cbn [body].
  rewrite lookup_insert_ne by done. by rewrite lookup_insert_eq.
Qed.

Lemma overlapping_uploads_witness :
  let w' := run V8.engine
              [ClickUpload 1730000000000; ClickUpload 1730000000005;
               Settle 1 (FetchRejects (lit "Failed to fetch"));
               Settle 0 (FetchResolves ready_response)]
              {| page := page_with_file; pending := []; sent := []; shown := [] |} in
  sessionId (page w') = Some (lit "session_" ++ dec 1730000000005)
  ∧ uploadStatus_textContent (page w') = lit "Ready".
Proof.
  destruct (overlapping_uploads V8.engine
              {| page := page_with_file; pending := []; sent := []; shown := [] |}
              1730000000000 1730000000005 (lit "Failed to fetch") ready_response
              (list_to_map [(lit "message", VStr (lit "Ready"))]) (lit "Ready"))
    as (Hs & Ht & _); try reflexivity; [discriminate|].
  split; [exact Hs | exact Ht].
Defined.
